(** * Pi_IMU: a shallow embedding of [IMU.py]

    The module drives a LSM9DS0 accelerometer / magnetometer / gyroscope over
    an SMBus, decodes register pairs into signed readings, and runs
    background acquisition processes that log samples to files and forward
    them through a pipe.

    Python integers are unbounded, hence [Z].  Every statement that touches
    the outside world (bus, files, pipe, shared flag, stdout, processes) is
    recorded as an [Event] in a chronological trace; the answers of the
    outside world come from an [Env] of reply streams.  Exceptions are a
    result constructor, and the [while] loop of the acquisition task is
    driven by fuel. *)

From Stdlib Require Import ZArith List String Ascii Bool Lia.
From Stdlib Require Import DecimalString DecimalZ DecimalPos.
Import ListNotations.
Open Scope string_scope.
Open Scope list_scope.
Open Scope Z_scope.

(** ** Register map ([from LSM9DS0 import *])

    The constants come from a module outside this file; the model takes
    them as a parameter. *)

Record RegisterMap := mkRegisterMap {
  ACC_ADDRESS : Z;  MAG_ADDRESS : Z;  GYR_ADDRESS : Z;
  CTRL_REG1_XM : Z; CTRL_REG2_XM : Z;
  CTRL_REG5_XM : Z; CTRL_REG6_XM : Z; CTRL_REG7_XM : Z;
  CTRL_REG1_G : Z;  CTRL_REG4_G : Z;
  OUT_X_L_A : Z; OUT_X_H_A : Z; OUT_Y_L_A : Z; OUT_Y_H_A : Z;
  OUT_Z_L_A : Z; OUT_Z_H_A : Z;
  OUT_X_L_M : Z; OUT_X_H_M : Z; OUT_Y_L_M : Z; OUT_Y_H_M : Z;
  OUT_Z_L_M : Z; OUT_Z_H_M : Z;
  OUT_X_L_G : Z; OUT_X_H_G : Z; OUT_Y_L_G : Z; OUT_Y_H_G : Z;
  OUT_Z_L_G : Z; OUT_Z_H_G : Z
}.

(** ** Data *)

(** The dictionary [{'x': .., 'y': .., 'z': ..}] built by [readAcc],
    [readGyr] and [readMag]: the three keys are fixed. *)
Record AxisReading := mkReading { x : Z; y : Z; z : Z }.

(** A [multiprocessing.Process] with the arguments it was created with;
    [exit_flag] and [pipe] are the identities of the shared
    [multiprocessing.Value] and of the sending pipe end. *)
Record Process := mkProcess {
  pid : nat;
  p_freq : Z;
  p_file_name : string;
  p_cut : option Z;
  p_exit_flag : nat;
  p_pipe : nat
}.

(** The attributes of an [IMU] object set by [__init__].  The bus handle
    is the environment of the model, and [save_path] is the one directory
    under which all files are named. *)
Record IMU := mkIMU {
  _processes : list Process;
  _flags : list nat;
  _acc_active : bool;
  _gyr_active : bool;
  _mag_active : bool
}.

Inductive Origin := Bus | File | Pipe.

Inductive Exn :=
| SensorInactiveError (sensor : string)
| ValueError (message : string)
| ZeroDivisionError
| OSError (origin : Origin).

Inductive Event :=
| BusWrite (address register value : Z)
| BusRead (address register : Z)
| FlagRead (flag : nat)
| FlagWrite (flag : nat) (value : Z)
| FileOpen (name : string)
| FileWrite (name : string) (text : string)
| FileClose (name : string)
| PipeSend (pipe : nat) (bundle : list AxisReading)
| PipeClose (pipe : nat)
| Sleep (freq : Z)
| Print (text : string)
| ProcessStart (p : Process)
| ProcessJoin (p : Process).

(** What the outside world answers.  Each stream is indexed by how many
    operations of that kind came before. *)
Record Env := mkEnv {
  bus_reply : nat -> option Z;
  exit_flag_value : nat -> Z;
  file_ok : nat -> bool;
  pipe_ok : nat -> bool;
  join_returns : nat -> bool
}.

Record World := mkWorld {
  self : IMU;
  bus_n : nat;
  flag_n : nat;
  file_n : nat;
  pipe_n : nat;
  join_n : nat;
  fresh : nat;
  trace : list Event
}.

Inductive Result (A : Type) :=
| Returned (a : A)
| Raised (e : Exn)
| Running.
Arguments Returned {A} a.
Arguments Raised {A} e.
Arguments Running {A}.

Definition M (A : Type) : Type := World -> World * Result A.

Definition ret {A} (a : A) : M A := fun w => (w, Returned a).

Definition bind {A B} (m : M A) (f : A -> M B) : M B :=
  fun w =>
    match m w with
    | (w', Returned a) => f a w'
    | (w', Raised e) => (w', Raised e)
    | (w', Running) => (w', Running)
    end.

Definition raise {A} (e : Exn) : M A := fun w => (w, Raised e).

Definition running {A} : M A := fun w => (w, Running).

Declare Scope imu_scope.
Delimit Scope imu_scope with imu.
Notation "v <- m ;; k" := (bind m (fun v => k))
  (at level 100, m at next level, right associativity) : imu_scope.
Notation "m ;;; k" := (bind m (fun _ => k))
  (at level 100, right associativity) : imu_scope.
Open Scope imu_scope.

Definition emit (e : Event) : M unit :=
  fun w => (mkWorld (self w) (bus_n w) (flag_n w) (file_n w) (pipe_n w)
                    (join_n w) (fresh w) (trace w ++ [e]), Returned tt).

Definition get_self : M IMU := fun w => (w, Returned (self w)).

Definition set_self (s : IMU) : M unit :=
  fun w => (mkWorld s (bus_n w) (flag_n w) (file_n w) (pipe_n w)
                    (join_n w) (fresh w) (trace w), Returned tt).

(** [try: body except <handled> as e: handler e]: the handler picks the
    exceptions it catches; all others propagate. *)
Definition try_except {A} (body : M A) (handler : Exn -> option (M A)) : M A :=
  fun w =>
    match body w with
    | (w', Raised e) =>
        match handler e with
        | Some h => h w'
        | None => (w', Raised e)
        end
    | r => r
    end.

(** [str.format] on an integer argument. *)
Definition str (n : Z) : string := NilZero.string_of_int (Z.to_int n).

Section Model.

Variable rm : RegisterMap.
Variable env : Env.

(** *** The bus *)

Definition write_byte_data (address register value : Z) : M unit :=
  fun w =>
    let w' := mkWorld (self w) (S (bus_n w)) (flag_n w) (file_n w) (pipe_n w)
                      (join_n w) (fresh w)
                      (trace w ++ [BusWrite address register value]) in
    match bus_reply env (bus_n w) with
    | Some _ => (w', Returned tt)
    | None => (w', Raised (OSError Bus))
    end.

Definition read_byte_data (address register : Z) : M Z :=
  fun w =>
    let w' := mkWorld (self w) (S (bus_n w)) (flag_n w) (file_n w) (pipe_n w)
                      (join_n w) (fresh w)
                      (trace w ++ [BusRead address register]) in
    match bus_reply env (bus_n w) with
    | Some b => (w', Returned b)
    | None => (w', Raised (OSError Bus))
    end.

(** *** Sensor state and axis reads *)

Definition writeReg (address register value : Z) : M Z :=
  write_byte_data address register value ;;;
  ret (-1).

Definition set_active (acc gyr mag : bool) : M unit :=
  s <- get_self ;;
  set_self (mkIMU (_processes s) (_flags s) acc gyr mag).

Definition reset_registers : M unit :=
  writeReg (ACC_ADDRESS rm) (CTRL_REG1_XM rm) 0 ;;;
  writeReg (ACC_ADDRESS rm) (CTRL_REG2_XM rm) 0 ;;;
  writeReg (MAG_ADDRESS rm) (CTRL_REG5_XM rm) 0 ;;;
  writeReg (MAG_ADDRESS rm) (CTRL_REG6_XM rm) 0 ;;;
  writeReg (MAG_ADDRESS rm) (CTRL_REG7_XM rm) 0 ;;;
  writeReg (GYR_ADDRESS rm) (CTRL_REG1_G rm) 0 ;;;
  writeReg (GYR_ADDRESS rm) (CTRL_REG4_G rm) 0 ;;;
  set_active false false false.

Definition setup_default : M unit :=
  writeReg (ACC_ADDRESS rm) (CTRL_REG1_XM rm) 103 ;;;
  writeReg (ACC_ADDRESS rm) (CTRL_REG2_XM rm) 32 ;;;
  writeReg (MAG_ADDRESS rm) (CTRL_REG5_XM rm) 240 ;;;
  writeReg (MAG_ADDRESS rm) (CTRL_REG6_XM rm) 96 ;;;
  writeReg (MAG_ADDRESS rm) (CTRL_REG7_XM rm) 0 ;;;
  writeReg (GYR_ADDRESS rm) (CTRL_REG1_G rm) 15 ;;;
  writeReg (GYR_ADDRESS rm) (CTRL_REG4_G rm) 48 ;;;
  set_active true true true.

Definition axis_message : string :=
  "Expected axis to be 0,1 or 2 corresponding to x,y,z".

(** [combined if combined < 32768 else combined - 65536] where
    [combined = (l | h << 8)]; in Python [<<] binds tighter than [|]. *)
Definition combined (l h : Z) : Z := Z.lor l (Z.shiftl h 8).

Definition to_signed (combined : Z) : Z :=
  if combined <? 32768 then combined else combined - 65536.

Definition readAccAxis (axis : Z) : M Z :=
  s <- get_self ;;
  if negb (_acc_active s) then raise (SensorInactiveError "Accelerometer")
  else
    regs <- (if axis =? 0 then ret (OUT_X_L_A rm, OUT_X_H_A rm)
             else if axis =? 1 then ret (OUT_Y_L_A rm, OUT_Y_H_A rm)
             else if axis =? 2 then ret (OUT_Z_L_A rm, OUT_Z_H_A rm)
             else raise (ValueError axis_message)) ;;
    acc_l <- read_byte_data (ACC_ADDRESS rm) (fst regs) ;;
    acc_h <- read_byte_data (ACC_ADDRESS rm) (snd regs) ;;
    ret (to_signed (combined acc_l acc_h)).

Definition readMagAxis (axis : Z) : M Z :=
  s <- get_self ;;
  if negb (_mag_active s) then raise (SensorInactiveError "Accelerometer")
  else
    regs <- (if axis =? 0 then ret (OUT_X_L_M rm, OUT_X_H_M rm)
             else if axis =? 1 then ret (OUT_Y_L_M rm, OUT_Y_H_M rm)
             else if axis =? 2 then ret (OUT_Z_L_M rm, OUT_Z_H_M rm)
             else raise (ValueError axis_message)) ;;
    mag_l <- read_byte_data (MAG_ADDRESS rm) (fst regs) ;;
    mag_h <- read_byte_data (MAG_ADDRESS rm) (snd regs) ;;
    ret (to_signed (combined mag_l mag_h)).

Definition readGyrAxis (axis : Z) : M Z :=
  s <- get_self ;;
  if negb (_acc_active s) then raise (SensorInactiveError "Accelerometer")
  else
    regs <- (if axis =? 0 then ret (OUT_X_L_G rm, OUT_X_H_G rm)
             else if axis =? 1 then ret (OUT_Y_L_G rm, OUT_Y_H_G rm)
             else if axis =? 2 then ret (OUT_Z_L_G rm, OUT_Z_H_G rm)
             else raise (ValueError axis_message)) ;;
    gyr_l <- read_byte_data (GYR_ADDRESS rm) (fst regs) ;;
    gyr_h <- read_byte_data (GYR_ADDRESS rm) (snd regs) ;;
    ret (to_signed (combined gyr_l gyr_h)).

Definition readAcc : M AxisReading :=
  vx <- readAccAxis 0 ;; vy <- readAccAxis 1 ;; vz <- readAccAxis 2 ;;
  ret (mkReading vx vy vz).

Definition readGyr : M AxisReading :=
  vx <- readGyrAxis 0 ;; vy <- readGyrAxis 1 ;; vz <- readGyrAxis 2 ;;
  ret (mkReading vx vy vz).

Definition readMag : M AxisReading :=
  vx <- readMagAxis 0 ;; vy <- readMagAxis 1 ;; vz <- readMagAxis 2 ;;
  ret (mkReading vx vy vz).

(** *** The acquisition task *)

Definition new_id : M nat :=
  fun w => (mkWorld (self w) (bus_n w) (flag_n w) (file_n w) (pipe_n w)
                    (join_n w) (S (fresh w)) (trace w), Returned (fresh w)).

(** [with exit_flag.get_lock(): local_flag = exit_flag.value].  The flag
    lives in shared memory and is written by the parent process, so the
    value read is an answer of the environment. *)
Definition read_exit_flag (exit_flag : nat) : M Z :=
  fun w => (mkWorld (self w) (bus_n w) (S (flag_n w)) (file_n w) (pipe_n w)
                    (join_n w) (fresh w) (trace w ++ [FlagRead exit_flag]),
            Returned (exit_flag_value env (flag_n w))).

Definition file_op (e : Event) : M unit :=
  fun w =>
    let w' := mkWorld (self w) (bus_n w) (flag_n w) (S (file_n w)) (pipe_n w)
                      (join_n w) (fresh w) (trace w ++ [e]) in
    if file_ok env (file_n w) then (w', Returned tt)
    else (w', Raised (OSError File)).

(** [with open(str(file_path), 'w') as file: body]: the file is closed when
    the block is left, by its end or by an exception.  Files are named
    relative to [self.save_path]. *)
Definition with_open {A} (name : string) (body : M A) : M A :=
  file_op (FileOpen name) ;;;
  fun w =>
    match body w with
    | (w', Returned a) => bind (emit (FileClose name)) (fun _ => ret a) w'
    | (w', Raised e) => bind (emit (FileClose name)) (fun _ => raise e) w'
    | (w', Running) => (w', Running)
    end.

Definition pipe_send (pipe : nat) (bundle : list AxisReading) : M unit :=
  fun w =>
    let w' := mkWorld (self w) (bus_n w) (flag_n w) (file_n w) (S (pipe_n w))
                      (join_n w) (fresh w) (trace w ++ [PipeSend pipe bundle]) in
    if pipe_ok env (pipe_n w) then (w', Returned tt)
    else (w', Raised (OSError Pipe)).

(** [time.sleep(1/freq)] *)
Definition sleep (freq : Z) : M unit :=
  if freq =? 0 then raise ZeroDivisionError
  else if freq <? 0 then raise (ValueError "sleep length must be non-negative")
  else emit (Sleep freq).

Definition nl : string := String (ascii_of_nat 10) EmptyString.

Definition file_output (acc mag gyr : AxisReading) : string :=
  "Acc: " ++ str (x acc) ++ " " ++ str (y acc) ++ " " ++ str (z acc) ++
  " Gyr: " ++ str (x gyr) ++ " " ++ str (y gyr) ++ " " ++ str (z gyr) ++
  " Mag: " ++ str (x mag) ++ " " ++ str (y mag) ++ " " ++ str (z mag) ++ nl.

Definition file_path (file_name : string) (n : Z) : string :=
  file_name ++ "_" ++ str n ++ ".txt".

(** One pass through the body of [for i in range(0, cut*freq)], entered
    with counter [n]; gives the new [local_flag]. *)
Definition take_sample (freq : Z) (file_name : string) (exit_flag pipe : nat)
    (n : Z) : M Z :=
  let path := file_path file_name n in
  with_open path
    (acc <- readAcc ;;
     mag <- readMag ;;
     gyr <- readGyr ;;
     file_op (FileWrite path (file_output acc mag gyr)) ;;;
     pipe_send pipe [acc; mag; gyr] ;;;
     local_flag <- read_exit_flag exit_flag ;;
     sleep freq ;;;
     ret local_flag).

(** The [for] loop with [iters] passes left; [n] is incremented in every
    pass and [local_flag] is overwritten in every pass. *)
Fixpoint for_range (iters : nat) (freq : Z) (file_name : string)
    (exit_flag pipe : nat) (n local_flag : Z) : M (Z * Z) :=
  match iters with
  | O => ret (n, local_flag)
  | S iters' =>
      flag' <- take_sample freq file_name exit_flag pipe n ;;
      for_range iters' freq file_name exit_flag pipe (n + 1) flag'
  end.

(** [while local_flag == 0: if cut is not None: n = 0; for ...]: each unit
    of fuel pays for one pass of the [while] loop. *)
Fixpoint while_loop (fuel : nat) (freq : Z) (file_name : string)
    (cut : option Z) (exit_flag pipe : nat) (local_flag : Z) : M unit :=
  if local_flag =? 0 then
    match fuel with
    | O => running
    | S fuel' =>
        match cut with
        | Some c =>
            r <- for_range (Z.to_nat (c * freq)) freq file_name
                           exit_flag pipe 0 local_flag ;;
            while_loop fuel' freq file_name cut exit_flag pipe (snd r)
        | None =>
            while_loop fuel' freq file_name cut exit_flag pipe local_flag
        end
    end
  else ret tt.

(** [SensorInactiveError.__init__] *)
Definition message (sensor : string) : string :=
  "Attempted to read data from the " ++ sensor ++
  " failed due to inactive sensor".

Definition measurements_body (fuel : nat) (freq : Z) (file_name : string)
    (cut : option Z) (exit_flag pipe : nat) : M unit :=
  local_flag <- read_exit_flag exit_flag ;;
  while_loop fuel freq file_name cut exit_flag pipe local_flag ;;;
  emit (PipeClose pipe).

Definition except_SensorInactiveError (e : Exn) : option (M unit) :=
  match e with
  | SensorInactiveError sensor => Some (emit (Print (message sensor)))
  | _ => None
  end.

Definition _take_measurements (fuel : nat) (freq : Z) (file_name : string)
    (cut : option Z) (exit_flag pipe : nat) : M unit :=
  try_except (measurements_body fuel freq file_name cut exit_flag pipe)
             except_SensorInactiveError.

(** *** The supervisor *)

Definition take_measurements_process (freq : Z) (file_name : string)
    (cut : option Z) : M nat :=
  exit_flag <- new_id ;;
  pipe <- new_id ;;
  id <- new_id ;;
  let p := mkProcess id freq file_name cut exit_flag pipe in
  s <- get_self ;;
  set_self (mkIMU (_processes s ++ [p]) (_flags s)
                  (_acc_active s) (_gyr_active s) (_mag_active s)) ;;;
  s <- get_self ;;
  set_self (mkIMU (_processes s) (_flags s ++ [exit_flag])
                  (_acc_active s) (_gyr_active s) (_mag_active s)) ;;;
  emit (ProcessStart p) ;;;
  ret pipe.

(** [process.join()] has no timeout: it returns when the process has
    ended and blocks for ever otherwise. *)
Definition join (p : Process) : M unit :=
  fun w =>
    let w' := mkWorld (self w) (bus_n w) (flag_n w) (file_n w) (pipe_n w)
                      (S (join_n w)) (fresh w) (trace w ++ [ProcessJoin p]) in
    if join_returns env (join_n w) then (w', Returned tt) else (w', Running).

Fixpoint set_flags (flags : list nat) : M unit :=
  match flags with
  | [] => ret tt
  | flag :: rest => emit (FlagWrite flag 1) ;;; set_flags rest
  end.

Fixpoint join_processes (i : Z) (processes : list Process) : M unit :=
  match processes with
  | [] => ret tt
  | process :: rest =>
      join process ;;;
      emit (Print ("IMU Process " ++ str i ++ " joined")) ;;;
      join_processes (i + 1) rest
  end.

Definition end_measurements_processes : M unit :=
  s <- get_self ;;
  set_flags (_flags s) ;;;
  s <- get_self ;;
  join_processes 0 (_processes s).

End Model.

(** ** Concrete instances used to run the model *)

(** The state [__init__] leaves behind. *)
Definition init_IMU : IMU := mkIMU [] [] false false false.

Definition world_of (s : IMU) : World := mkWorld s 0 0 0 0 0 0 [].

(** Register addresses of the LSM9DS0 data sheet. *)
Definition LSM9DS0 : RegisterMap :=
  mkRegisterMap 30 30 106
                32 33 36 37 38
                32 35
                40 41 42 43 44 45
                8 9 10 11 12 13
                40 41 42 43 44 45.

(** An environment in which nothing fails: bus transaction [k] answers
    [bytes k], the shared flag reads [flag k]. *)
Definition healthy_env (bytes : nat -> Z) (flag : nat -> Z) : Env :=
  mkEnv (fun k => Some (bytes k)) flag (fun _ => true) (fun _ => true)
        (fun _ => true).

Definition all_active : IMU := mkIMU [] [] true true true.

(** ** Vocabulary of the statements *)

(** The world after [b] bus transactions, [f] flag reads, [io] file
    operations and [p] pipe sends that produced the events [evs]. *)
Definition observe (w : World) (b f io p : nat) (evs : list Event) : World :=
  mkWorld (self w) (b + bus_n w) (f + flag_n w) (io + file_n w)
          (p + pipe_n w) (join_n w) (fresh w) (trace w ++ evs).

Definition is_send (e : Event) : bool :=
  match e with PipeSend _ _ => true | _ => false end.

Definition is_close (e : Event) : bool :=
  match e with PipeClose _ => true | _ => false end.

Definition sends (evs : list Event) : nat := List.length (filter is_send evs).

Definition closes (evs : list Event) : nat := List.length (filter is_close evs).

(** Names of the files opened, in the order they are opened. *)
Fixpoint opened (evs : list Event) : list string :=
  match evs with
  | [] => []
  | FileOpen name :: rest => name :: opened rest
  | _ :: rest => opened rest
  end.

(** Number of lines written before [name] is opened for the first time. *)
Fixpoint writes_before (name : string) (evs : list Event) : nat :=
  match evs with
  | [] => O
  | FileOpen name' :: rest =>
      if String.eqb name name' then O else writes_before name rest
  | FileWrite _ _ :: rest => S (writes_before name rest)
  | _ :: rest => writes_before name rest
  end.

(** Output register pairs by axis. *)
Definition out_A (rm : RegisterMap) (axis : Z) : Z * Z :=
  if axis =? 0 then (OUT_X_L_A rm, OUT_X_H_A rm)
  else if axis =? 1 then (OUT_Y_L_A rm, OUT_Y_H_A rm)
  else (OUT_Z_L_A rm, OUT_Z_H_A rm).

Definition out_M (rm : RegisterMap) (axis : Z) : Z * Z :=
  if axis =? 0 then (OUT_X_L_M rm, OUT_X_H_M rm)
  else if axis =? 1 then (OUT_Y_L_M rm, OUT_Y_H_M rm)
  else (OUT_Z_L_M rm, OUT_Z_H_M rm).

Definition out_G (rm : RegisterMap) (axis : Z) : Z * Z :=
  if axis =? 0 then (OUT_X_L_G rm, OUT_X_H_G rm)
  else if axis =? 1 then (OUT_Y_L_G rm, OUT_Y_H_G rm)
  else (OUT_Z_L_G rm, OUT_Z_H_G rm).

Definition pair_reads (address : Z) (regs : Z * Z) : list Event :=
  [BusRead address (fst regs); BusRead address (snd regs)].

Definition sensor_reads (address : Z) (out : Z -> Z * Z) : list Event :=
  pair_reads address (out 0) ++ pair_reads address (out 1) ++
  pair_reads address (out 2).

(** The reading decoded from the six bytes [bytes k .. bytes (k+5)]. *)
Definition reading (bytes : nat -> Z) (k : nat) : AxisReading :=
  mkReading (to_signed (combined (bytes k) (bytes (1 + k)%nat)))
            (to_signed (combined (bytes (2 + k)%nat) (bytes (3 + k)%nat)))
            (to_signed (combined (bytes (4 + k)%nat) (bytes (5 + k)%nat))).

(** Events of one successful sample whose bus replies start at [k]. *)
Definition sample_events (rm : RegisterMap) (freq : Z) (file_name : string)
    (exit_flag pipe : nat) (n : Z) (bytes : nat -> Z) (k : nat) : list Event :=
  let acc := reading bytes k in
  let mag := reading bytes (6 + k) in
  let gyr := reading bytes (12 + k) in
  [FileOpen (file_path file_name n)] ++
  sensor_reads (ACC_ADDRESS rm) (out_A rm) ++
  sensor_reads (MAG_ADDRESS rm) (out_M rm) ++
  sensor_reads (GYR_ADDRESS rm) (out_G rm) ++
  [FileWrite (file_path file_name n) (file_output acc mag gyr);
   PipeSend pipe [acc; mag; gyr];
   FlagRead exit_flag;
   Sleep freq;
   FileClose (file_path file_name n)].

(** Events of [iters] successive samples, file counter starting at [n]. *)
Fixpoint block_events (rm : RegisterMap) (freq : Z) (file_name : string)
    (exit_flag pipe : nat) (bytes : nat -> Z) (iters : nat) (n : Z) (k : nat)
    : list Event :=
  match iters with
  | O => []
  | S iters' =>
      sample_events rm freq file_name exit_flag pipe n bytes k ++
      block_events rm freq file_name exit_flag pipe bytes iters' (n + 1)
                   (18 + k)
  end.


(** Events of joining the processes [ps], numbered from [i]. *)
Fixpoint join_events (i : Z) (ps : list Process) : list Event :=
  match ps with
  | [] => []
  | p :: rest =>
      ProcessJoin p :: Print ("IMU Process " ++ str i ++ " joined")
        :: join_events (i + 1) rest
  end.

Definition all_on (s : IMU) : Prop :=
  _acc_active s = true /\ _mag_active s = true /\ _gyr_active s = true.

(** The next [count] bus transactions of [w] succeed with the bytes that
    [bytes] gives for their positions. *)
Definition replies (env : Env) (bytes : nat -> Z) (w : World) (count : nat)
    : Prop :=
  forall i, (i < count)%nat ->
            bus_reply env (i + bus_n w) = Some (bytes (i + bus_n w)%nat).


(** The world after [count] joins that produced the events [evs]. *)
Definition joined (w : World) (count : nat) (evs : list Event) : World :=
  mkWorld (self w) (bus_n w) (flag_n w) (file_n w) (pipe_n w)
          (count + join_n w) (fresh w) (trace w ++ evs).


(** What a configuration sequence leaves behind: the flags at [b] when
    it returned, the object as it was when it did not. *)
Definition flags_set (b : bool) (w : World) (r : World * Result unit) : Prop :=
  match snd r with
  | Returned _ =>
      _acc_active (self (fst r)) = b /\ _gyr_active (self (fst r)) = b /\
      _mag_active (self (fst r)) = b
  | _ => self (fst r) = self w
  end.

(** ** More concrete instances *)

(** A stream of bus bytes. *)
Definition ramp (k : nat) : Z := Z.of_nat ((k * 37) mod 256).

(** The shared flag reads 0 for the first [c] reads and 1 from then on:
    the parent asks for cancellation between reads [c - 1] and [c]. *)
Definition cancel_from (c : nat) (k : nat) : Z :=
  if (k <? c)%nat then 0 else 1.

(** A fresh object on which two tasks were started. *)
Definition two_launched : World :=
  fst (bind (take_measurements_process 5 "a" None)
            (fun _ => take_measurements_process 10 "b" (Some 2))
            (world_of init_IMU)).

(** Every bus transaction fails. *)
Definition bus_down : Env :=
  mkEnv (fun _ => None) (fun _ => 0) (fun _ => true) (fun _ => true)
        (fun _ => true).

(** Opening the first file works, every later file operation fails. *)
Definition disk_full : Env :=
  mkEnv (fun k => Some (ramp k)) (fun _ => 0) (fun k => Nat.eqb k 0)
        (fun _ => true) (fun _ => true).

(** ** Vocabulary of the further properties *)

(** A computation that leaves the object alone and whose events, however
    it ends, satisfy [P]. *)
Definition extends (P : list Event -> Prop) {A} (m : M A) : Prop :=
  forall w,
    self (fst (m w)) = self w /\
    exists evs, trace (fst (m w)) = trace w ++ evs /\ P evs.

(** A computation that leaves the object alone and emits only events that
    [ok] accepts, however it ends. *)
Definition confined (ok : Event -> bool) {A} (m : M A) : Prop :=
  extends (fun evs => forallb ok evs = true) m.

Definition is_bus_read (e : Event) : bool :=
  match e with BusRead _ _ => true | _ => false end.

(** [writeReg] called on each (address, register, value) in turn, then
    [k]: the shape of [setup_default], of [reset_registers] and of any
    configuration a user writes by hand. *)
Fixpoint write_all_then {A} (env : Env) (triples : list (Z * Z * Z)) (k : M A)
    : M A :=
  match triples with
  | [] => k
  | (address, register, value) :: rest =>
      writeReg env address register value ;;; write_all_then env rest k
  end.

Definition write_event (t : Z * Z * Z) : Event :=
  BusWrite (fst (fst t)) (snd (fst t)) (snd t).

(** The seven configuration writes of [setup_default] and of
    [reset_registers]. *)
Definition setup_list (rm : RegisterMap) : list (Z * Z * Z) :=
  [(ACC_ADDRESS rm, CTRL_REG1_XM rm, 103);
   (ACC_ADDRESS rm, CTRL_REG2_XM rm, 32);
   (MAG_ADDRESS rm, CTRL_REG5_XM rm, 240);
   (MAG_ADDRESS rm, CTRL_REG6_XM rm, 96);
   (MAG_ADDRESS rm, CTRL_REG7_XM rm, 0);
   (GYR_ADDRESS rm, CTRL_REG1_G rm, 15);
   (GYR_ADDRESS rm, CTRL_REG4_G rm, 48)].

Definition reset_list (rm : RegisterMap) : list (Z * Z * Z) :=
  [(ACC_ADDRESS rm, CTRL_REG1_XM rm, 0);
   (ACC_ADDRESS rm, CTRL_REG2_XM rm, 0);
   (MAG_ADDRESS rm, CTRL_REG5_XM rm, 0);
   (MAG_ADDRESS rm, CTRL_REG6_XM rm, 0);
   (MAG_ADDRESS rm, CTRL_REG7_XM rm, 0);
   (GYR_ADDRESS rm, CTRL_REG1_G rm, 0);
   (GYR_ADDRESS rm, CTRL_REG4_G rm, 0)].

(** The object with its three flags set to [active]. *)
Definition with_flags (s : IMU) (active : bool) : IMU :=
  mkIMU (_processes s) (_flags s) active active active.

Definition with_self (w : World) (s : IMU) : World :=
  mkWorld s (bus_n w) (flag_n w) (file_n w) (pipe_n w) (join_n w) (fresh w)
          (trace w).

Definition all_off (s : IMU) : Prop :=
  _acc_active s = false /\ _mag_active s = false /\ _gyr_active s = false.

(** [readAcc], [readMag], [readGyr] in the order the acquisition loop
    calls them. *)
Definition read_bundle (rm : RegisterMap) (env : Env) : M (list AxisReading) :=
  acc <- readAcc rm env ;;
  mag <- readMag rm env ;;
  gyr <- readGyr rm env ;;
  ret [acc; mag; gyr].

(** The bus accepts the first two transactions and fails from the third
    on. *)
Definition third_write_fails : Env :=
  mkEnv (fun k => if (k <? 2)%nat then Some 0 else None) (fun _ => 0)
        (fun _ => true) (fun _ => true) (fun _ => true).

Definition in_int16 (v : Z) : Prop := -32768 <= v <= 32767.

Definition sleep_message : string := "sleep length must be non-negative".

Definition is_file_write (e : Event) : bool :=
  match e with FileWrite _ _ => true | _ => false end.

Definition writes (evs : list Event) : nat :=
  List.length (filter is_file_write evs).

(** What the acquisition task may do: everything but writing to the bus,
    writing the shared flag, and starting or joining processes. *)
Definition task_event (e : Event) : bool :=
  match e with
  | BusWrite _ _ _ | FlagWrite _ _ | ProcessStart _ | ProcessJoin _ => false
  | _ => true
  end.

(** What the supervisor's shutdown may do. *)
Definition shutdown_event (e : Event) : bool :=
  match e with
  | FlagWrite _ _ | ProcessJoin _ | Print _ => true
  | _ => false
  end.

(** The ways the part of a sample after the bus reads can end: the events
    it leaves and its result. *)
Definition sample_tail (path line : string) (pipe exit_flag : nat)
    (bundle : list AxisReading) (freq : Z) (evs : list Event) (r : Result Z)
    : Prop :=
  (evs = [FileWrite path line] /\ r = Raised (OSError File)) \/
  (evs = [FileWrite path line; PipeSend pipe bundle] /\
   r = Raised (OSError Pipe)) \/
  (evs = [FileWrite path line; PipeSend pipe bundle; FlagRead exit_flag] /\
   (r = Raised ZeroDivisionError \/ r = Raised (ValueError sleep_message))) \/
  (evs = [FileWrite path line; PipeSend pipe bundle; FlagRead exit_flag;
          Sleep freq] /\ exists v, r = Returned v).

(** The ways one pass of the [for] loop can end. *)
Definition sample_case (env : Env) (w : World) (path : string)
    (pipe exit_flag : nat) (freq : Z) (evs : list Event) (r : Result Z)
    : Prop :=
  (file_ok env (file_n w) = false /\
   evs = [FileOpen path] /\ r = Raised (OSError File)) \/
  (file_ok env (file_n w) = true /\
   exists reads, forallb is_bus_read reads = true /\
     ((exists e, evs = FileOpen path :: reads ++ [FileClose path] /\
                 r = Raised e) \/
      (exists acc mag gyr tail,
         evs = FileOpen path :: reads ++ tail ++ [FileClose path] /\
         sample_tail path (file_output acc mag gyr) pipe exit_flag
                     [acc; mag; gyr] freq tail r))).

(** A computation that always comes to an end. *)
Definition halts {A} (m : M A) : Prop := forall w, snd (m w) <> Running.

Definition is_open_or_close (e : Event) : bool :=
  match e with FileOpen _ | FileClose _ => true | _ => false end.

(** [take_measurements_process] called for each (freq, file_name, cut) in
    turn; gives the pipes it returned. *)
Fixpoint launch_all (requests : list (Z * string * option Z)) : M (list nat) :=
  match requests with
  | [] => ret []
  | (freq, file_name, cut) :: rest =>
      pipe <- take_measurements_process freq file_name cut ;;
      pipes <- launch_all rest ;;
      ret (pipe :: pipes)
  end.

Definition request_of (p : Process) : Z * string * option Z :=
  (p_freq p, p_file_name p, p_cut p).

(** The flag tracked at position [i] is the one handed to the process
    tracked at position [i]. *)
Definition aligned (s : IMU) : Prop :=
  map p_exit_flag (_processes s) = _flags s.

Definition same_flags (s s' : IMU) : Prop :=
  _acc_active s' = _acc_active s /\ _gyr_active s' = _gyr_active s /\
  _mag_active s' = _mag_active s.

(** * Proofs *)

(** ** Decoding *)

Lemma lor_bytes_add (l h : Z) :
  0 <= l < 256 -> 0 <= h -> Z.lor l (Z.shiftl h 8) = l + 256 * h.
Proof.
  intros Hl Hh.
  assert (Hand : Z.land l (Z.shiftl h 8) = 0).
  { apply Z.bits_inj'. intros k Hk. rewrite Z.land_spec, Z.bits_0.
    destruct (Z_lt_ge_dec k 8) as [Hlt | Hge].
    - rewrite (Z.shiftl_spec_low h 8 k Hlt). apply andb_false_r.
    - assert (Hb : Z.testbit l k = false).
      { destruct (Z.eq_dec l 0) as [-> | Hnz]; [apply Z.bits_0 |].
        apply Z.bits_above_log2; [lia |].
        assert (Z.log2 l < 8) by (apply Z.log2_lt_pow2; lia). lia. }
      rewrite Hb. reflexivity. }
  rewrite <- Z.lxor_lor by exact Hand.
  rewrite <- Z.add_nocarry_lxor by exact Hand.
  rewrite Z.shiftl_mul_pow2 by lia. change (2 ^ 8) with 256. lia.
Qed.

Lemma to_signed_range (v : Z) :
  0 <= v < 65536 -> -32768 <= to_signed v <= 32767.
Proof.
  intros Hv. unfold to_signed. destruct (Z.ltb_spec v 32768); lia.
Qed.

(** ** Running the monad *)

Lemma bind_returned {A B} (m : M A) (f : A -> M B) w w' a :
  m w = (w', Returned a) -> bind m f w = f a w'.
Proof. intros H. unfold bind. rewrite H. reflexivity. Qed.

Lemma bind_raised {A B} (m : M A) (f : A -> M B) w w' e :
  m w = (w', Raised e) -> bind m f w = (w', Raised e).
Proof. intros H. unfold bind. rewrite H. reflexivity. Qed.

Lemma bind_running {A B} (m : M A) (f : A -> M B) w w' :
  m w = (w', Running) -> bind m f w = (w', Running).
Proof. intros H. unfold bind. rewrite H. reflexivity. Qed.

Lemma observe_observe w b f io p evs b' f' io' p' evs' :
  observe (observe w b f io p evs) b' f' io' p' evs' =
  observe w (b' + b) (f' + f) (io' + io) (p' + p) (evs ++ evs').
Proof.
  unfold observe; simpl. rewrite <- app_assoc.
  f_equal; lia.
Qed.

Lemma observe_nil w : observe w 0 0 0 0 [] = w.
Proof. destruct w; unfold observe; simpl. rewrite app_nil_r. reflexivity. Qed.


Lemma observe_ext w b f io p evs b' f' io' p' evs' :
  b = b' -> f = f' -> io = io' -> p = p' -> evs = evs' ->
  observe w b f io p evs = observe w b' f' io' p' evs'.
Proof. intros; subst; reflexivity. Qed.

Lemma sends_app a b : sends (a ++ b) = (sends a + sends b)%nat.
Proof. unfold sends. rewrite filter_app, length_app. reflexivity. Qed.

Lemma closes_app a b : closes (a ++ b) = (closes a + closes b)%nat.
Proof. unfold closes. rewrite filter_app, length_app. reflexivity. Qed.

(** ** One sample, step by step *)

Section AxisReads.

Variable rm : RegisterMap.
Variable env : Env.

Lemma read_byte_data_ok address register w b :
  bus_reply env (bus_n w) = Some b ->
  read_byte_data env address register w =
  (observe w 1 0 0 0 [BusRead address register], Returned b).
Proof. intros H. unfold read_byte_data. rewrite H. reflexivity. Qed.

Lemma read_pair_ok {A} address regs (k : Z -> M A) w l h :
  bus_reply env (bus_n w) = Some l ->
  bus_reply env (S (bus_n w)) = Some h ->
  bind (read_byte_data env address (fst regs))
       (fun lo => bind (read_byte_data env address (snd regs))
                       (fun hi => k (to_signed (combined lo hi)))) w =
  k (to_signed (combined l h)) (observe w 2 0 0 0 (pair_reads address regs)).
Proof.
  intros Hl Hh.
  rewrite (bind_returned _ _ _ _ _ (read_byte_data_ok _ _ _ _ Hl)).
  erewrite bind_returned by (apply read_byte_data_ok; exact Hh).
  rewrite observe_observe. reflexivity.
Qed.

Lemma readAccAxis_ok axis w l h :
  _acc_active (self w) = true -> In axis [0; 1; 2] ->
  bus_reply env (bus_n w) = Some l ->
  bus_reply env (S (bus_n w)) = Some h ->
  readAccAxis rm env axis w =
  (observe w 2 0 0 0 (pair_reads (ACC_ADDRESS rm) (out_A rm axis)),
   Returned (to_signed (combined l h))).
Proof.
  intros Hon Hax Hl Hh. unfold readAccAxis, bind at 1, get_self.
  rewrite Hon. cbn [negb].
  destruct Hax as [<- | [<- | [<- | []]]]; cbn [Z.eqb Pos.eqb bind ret];
    exact (read_pair_ok _ _ (fun v => ret v) w l h Hl Hh).
Qed.

Lemma readMagAxis_ok axis w l h :
  _mag_active (self w) = true -> In axis [0; 1; 2] ->
  bus_reply env (bus_n w) = Some l ->
  bus_reply env (S (bus_n w)) = Some h ->
  readMagAxis rm env axis w =
  (observe w 2 0 0 0 (pair_reads (MAG_ADDRESS rm) (out_M rm axis)),
   Returned (to_signed (combined l h))).
Proof.
  intros Hon Hax Hl Hh. unfold readMagAxis, bind at 1, get_self.
  rewrite Hon. cbn [negb].
  destruct Hax as [<- | [<- | [<- | []]]]; cbn [Z.eqb Pos.eqb bind ret];
    exact (read_pair_ok _ _ (fun v => ret v) w l h Hl Hh).
Qed.

Lemma readGyrAxis_ok axis w l h :
  _acc_active (self w) = true -> In axis [0; 1; 2] ->
  bus_reply env (bus_n w) = Some l ->
  bus_reply env (S (bus_n w)) = Some h ->
  readGyrAxis rm env axis w =
  (observe w 2 0 0 0 (pair_reads (GYR_ADDRESS rm) (out_G rm axis)),
   Returned (to_signed (combined l h))).
Proof.
  intros Hon Hax Hl Hh. unfold readGyrAxis, bind at 1, get_self.
  rewrite Hon. cbn [negb].
  destruct Hax as [<- | [<- | [<- | []]]]; cbn [Z.eqb Pos.eqb bind ret];
    exact (read_pair_ok _ _ (fun v => ret v) w l h Hl Hh).
Qed.

Variable bytes : nat -> Z.

Lemma replies_shift w count b f io p evs rest :
  replies env bytes w (b + rest) -> (count <= rest)%nat ->
  replies env bytes (observe w b f io p evs) count.
Proof.
  intros H Hle i Hi. cbn [observe bus_n].
  replace (i + (b + bus_n w))%nat with ((i + b) + bus_n w)%nat by lia.
  apply H. lia.
Qed.

Lemma readAcc_ok w :
  _acc_active (self w) = true -> replies env bytes w 6 ->
  readAcc rm env w =
  (observe w 6 0 0 0 (sensor_reads (ACC_ADDRESS rm) (out_A rm)),
   Returned (reading bytes (bus_n w))).
Proof.
  intros Hon H. unfold readAcc.
  erewrite bind_returned
    by (apply readAccAxis_ok; [exact Hon | simpl; tauto | apply (H 0%nat); lia | apply (H 1%nat); lia]).
  erewrite bind_returned
    by (apply readAccAxis_ok; [exact Hon | simpl; tauto | apply (H 2%nat); lia | apply (H 3%nat); lia]).
  erewrite bind_returned
    by (apply readAccAxis_ok; [exact Hon | simpl; tauto | apply (H 4%nat); lia | apply (H 5%nat); lia]).
  rewrite !observe_observe. reflexivity.
Qed.

Lemma readMag_ok w :
  _mag_active (self w) = true -> replies env bytes w 6 ->
  readMag rm env w =
  (observe w 6 0 0 0 (sensor_reads (MAG_ADDRESS rm) (out_M rm)),
   Returned (reading bytes (bus_n w))).
Proof.
  intros Hon H. unfold readMag.
  erewrite bind_returned
    by (apply readMagAxis_ok; [exact Hon | simpl; tauto | apply (H 0%nat); lia | apply (H 1%nat); lia]).
  erewrite bind_returned
    by (apply readMagAxis_ok; [exact Hon | simpl; tauto | apply (H 2%nat); lia | apply (H 3%nat); lia]).
  erewrite bind_returned
    by (apply readMagAxis_ok; [exact Hon | simpl; tauto | apply (H 4%nat); lia | apply (H 5%nat); lia]).
  rewrite !observe_observe. reflexivity.
Qed.

Lemma readGyr_ok w :
  _acc_active (self w) = true -> replies env bytes w 6 ->
  readGyr rm env w =
  (observe w 6 0 0 0 (sensor_reads (GYR_ADDRESS rm) (out_G rm)),
   Returned (reading bytes (bus_n w))).
Proof.
  intros Hon H. unfold readGyr.
  erewrite bind_returned
    by (apply readGyrAxis_ok; [exact Hon | simpl; tauto | apply (H 0%nat); lia | apply (H 1%nat); lia]).
  erewrite bind_returned
    by (apply readGyrAxis_ok; [exact Hon | simpl; tauto | apply (H 2%nat); lia | apply (H 3%nat); lia]).
  erewrite bind_returned
    by (apply readGyrAxis_ok; [exact Hon | simpl; tauto | apply (H 4%nat); lia | apply (H 5%nat); lia]).
  rewrite !observe_observe. reflexivity.
Qed.

Lemma file_op_ok e w :
  file_ok env (file_n w) = true ->
  file_op env e w = (observe w 0 0 1 0 [e], Returned tt).
Proof. intros H. unfold file_op. rewrite H. reflexivity. Qed.

Lemma pipe_send_ok pipe bundle w :
  pipe_ok env (pipe_n w) = true ->
  pipe_send env pipe bundle w = (observe w 0 0 0 1 [PipeSend pipe bundle], Returned tt).
Proof. intros H. unfold pipe_send. rewrite H. reflexivity. Qed.

Lemma read_exit_flag_eq exit_flag w :
  read_exit_flag env exit_flag w =
  (observe w 0 1 0 0 [FlagRead exit_flag], Returned (exit_flag_value env (flag_n w))).
Proof. reflexivity. Qed.

Lemma emit_eq e w : emit e w = (observe w 0 0 0 0 [e], Returned tt).
Proof. reflexivity. Qed.

Lemma sleep_ok freq w :
  0 < freq -> sleep freq w = (observe w 0 0 0 0 [Sleep freq], Returned tt).
Proof.
  intros H. unfold sleep.
  destruct (Z.eqb_spec freq 0); [lia |].
  destruct (Z.ltb_spec freq 0); [lia |]. reflexivity.
Qed.

Lemma take_sample_ok freq file_name exit_flag pipe n w :
  all_on (self w) -> replies env bytes w 18 ->
  file_ok env (file_n w) = true -> file_ok env (S (file_n w)) = true ->
  pipe_ok env (pipe_n w) = true -> 0 < freq ->
  take_sample rm env freq file_name exit_flag pipe n w =
  (observe w 18 1 2 1
     (sample_events rm freq file_name exit_flag pipe n bytes (bus_n w)),
   Returned (exit_flag_value env (flag_n w))).
Proof.
  intros (Hacc & Hmag & Hgyr) Hbus Hopen Hwrite Hpipe Hfreq.
  unfold take_sample, with_open.
  rewrite (bind_returned _ _ _ _ _ (file_op_ok _ _ Hopen)).
  erewrite bind_returned
    by (apply readAcc_ok; [exact Hacc | apply replies_shift with (rest := 18%nat); [exact Hbus | lia]]).
  rewrite observe_observe.
  erewrite bind_returned
    by (apply readMag_ok; [exact Hmag | apply replies_shift with (rest := 12%nat); [exact Hbus | lia]]).
  rewrite observe_observe.
  erewrite bind_returned
    by (apply readGyr_ok; [exact Hacc | apply replies_shift with (rest := 6%nat); [exact Hbus | lia]]).
  rewrite observe_observe.
  erewrite bind_returned by (apply file_op_ok; exact Hwrite).
  rewrite observe_observe.
  erewrite bind_returned by (apply pipe_send_ok; exact Hpipe).
  rewrite observe_observe.
  rewrite (bind_returned _ _ _ _ _ (read_exit_flag_eq _ _)).
  rewrite observe_observe.
  erewrite bind_returned by (apply sleep_ok; exact Hfreq).
  rewrite observe_observe.
  unfold ret. rewrite (bind_returned _ _ _ _ _ (emit_eq _ _)).
  rewrite observe_observe.
  cbn [observe bus_n flag_n Nat.add]. unfold sample_events.
  rewrite <- !app_assoc. cbn [app]. reflexivity.
Qed.
End AxisReads.

(** ** The loops when nothing fails *)

Section Loops.
Variable rm : RegisterMap.
Variable env : Env.
Variable bytes : nat -> Z.
Variables (freq : Z) (file_name : string) (exit_flag pipe : nat).

Hypothesis bus_healthy : forall k, bus_reply env k = Some (bytes k).
Hypothesis files_healthy : forall k, file_ok env k = true.
Hypothesis pipe_healthy : forall k, pipe_ok env k = true.
Hypothesis freq_pos : 0 < freq.

Lemma for_range_ok iters : forall n local_flag w,
  all_on (self w) ->
  for_range rm env iters freq file_name exit_flag pipe n local_flag w =
  (observe w (18 * iters) iters (2 * iters) iters
     (block_events rm freq file_name exit_flag pipe bytes iters n (bus_n w)),
   Returned (n + Z.of_nat iters,
             match iters with
             | O => local_flag
             | S i => exit_flag_value env (i + flag_n w)
             end)).
Proof.
  induction iters as [| i IH]; intros n local_flag w Hon.
  - cbn [for_range block_events Nat.mul]. unfold ret.
    rewrite observe_nil, Z.add_0_r. reflexivity.
  - cbn [for_range].
    erewrite bind_returned
      by (apply (take_sample_ok rm env bytes); auto; intros k _; apply bus_healthy).
    rewrite IH by exact Hon.
    rewrite observe_observe. cbn [block_events observe bus_n flag_n].
    f_equal.
    + apply observe_ext; try lia. reflexivity.
    + f_equal. f_equal; [lia |].
      destruct i as [| j]; [reflexivity |].
      f_equal. lia.
Qed.

Variable c : Z.
Variable N : nat.
Hypothesis N_def : N = Z.to_nat (c * freq).


End Loops.

(** ** The pipe is closed only at the end of the [try] block *)







Section Quiet.
Variable rm : RegisterMap.
Variable env : Env.
















End Quiet.

(** ** Counting the events of successful samples *)

Lemma sends_sample rm freq file_name exit_flag pipe n bytes k :
  sends (sample_events rm freq file_name exit_flag pipe n bytes k) = 1%nat.
Proof. reflexivity. Qed.

Lemma closes_sample rm freq file_name exit_flag pipe n bytes k :
  closes (sample_events rm freq file_name exit_flag pipe n bytes k) = 0%nat.
Proof. reflexivity. Qed.

Lemma count_block rm freq file_name exit_flag pipe bytes iters : forall n k,
  sends (block_events rm freq file_name exit_flag pipe bytes iters n k) = iters /\
  closes (block_events rm freq file_name exit_flag pipe bytes iters n k) = 0%nat.
Proof.
  induction iters as [| i IH]; intros n k; cbn [block_events]; [split; reflexivity |].
  rewrite sends_app, closes_app, sends_sample, closes_sample.
  destruct (IH (n + 1) (18 + k)%nat) as [-> ->]. split; reflexivity.
Qed.


(** ** The supervisor, step by step *)

Lemma set_flags_eq flags : forall w,
  set_flags flags w =
  (observe w 0 0 0 0 (map (fun flag => FlagWrite flag 1) flags), Returned tt).
Proof.
  induction flags as [| flag rest IH]; intros w; cbn [set_flags map].
  - unfold ret. rewrite observe_nil. reflexivity.
  - rewrite (bind_returned _ _ _ _ _ (emit_eq _ _)), IH, observe_observe.
    reflexivity.
Qed.

Lemma join_processes_ok env processes : forall i w,
  (forall k, (k < List.length processes)%nat ->
             join_returns env (k + join_n w) = true) ->
  join_processes env i processes w =
  (joined w (List.length processes) (join_events i processes), Returned tt).
Proof.
  induction processes as [| p rest IH]; intros i w H;
    cbn [join_processes join_events List.length].
  - unfold ret, joined. cbn. rewrite app_nil_r. destruct w; reflexivity.
  - unfold bind at 1, join.
    rewrite (H 0%nat ltac:(cbn; lia) : join_returns env (join_n w) = true).
    rewrite (bind_returned _ _ _ _ _ (emit_eq _ _)).
    rewrite IH.
    + unfold joined, observe. cbn. rewrite <- !app_assoc. cbn.
      do 2 f_equal. lia.
    + intros k Hk. cbn.
      replace (k + S (join_n w))%nat with (S k + join_n w)%nat by lia.
      apply H. cbn. lia.
Qed.

(** ** The active flags move together *)

Lemma flags_set_after_write env b address register value (k : M unit) w0 w :
  self w = self w0 ->
  (forall w', self w' = self w0 -> flags_set b w0 (k w')) ->
  flags_set b w0 (bind (writeReg env address register value) (fun _ => k) w).
Proof.
  intros Hself Hk.
  assert (Hw : forall w1 r, writeReg env address register value w = (w1, r) ->
                            self w1 = self w0).
  { unfold writeReg, bind, write_byte_data, ret.
    destruct (bus_reply env (bus_n w)); intros w1 r [= <- _]; exact Hself. }
  unfold bind.
  destruct (writeReg env address register value w) as [w1 [v | e |]];
    [apply Hk |  |]; apply (Hw _ _ eq_refl).
Qed.

Lemma flags_set_by_set_active b w0 w :
  flags_set b w0 (set_active b b b w).
Proof. cbn. auto. Qed.

(** [setup_default] turns the three flags on and [reset_registers] turns
    them off, in both cases only after all seven writes succeeded; a
    failed write leaves the flags as they were. *)
Lemma setup_and_reset_flags rm env w :
  flags_set true w (setup_default rm env w) /\
  flags_set false w (reset_registers rm env w).
Proof.
  unfold setup_default, reset_registers.
  split;
    (apply flags_set_after_write; [reflexivity |]);
    do 6 (intros ? ?; (apply flags_set_after_write; [assumption |]));
    intros ? _; apply flags_set_by_set_active.
Qed.

(** * The claims *)

(** C1.  When the sensors are active and the axis is 0, 1 or 2, each of
    [readAccAxis], [readMagAxis] and [readGyrAxis] combines the two bus
    bytes [low] and [high] (both in 0..255) as [v = low | (high << 8)], an
    unsigned 16-bit value, and returns [v] when [v < 32768] and
    [v - 65536] otherwise.  The result lies in -32768..32767, and 32767,
    32768, 65535 and 0 decode to 32767, -32768, -1 and 0. *)
Theorem axis_reads_decode_twos_complement rm env axis low high w :
  all_on (self w) -> In axis [0; 1; 2] ->
  0 <= low <= 255 -> 0 <= high <= 255 ->
  bus_reply env (bus_n w) = Some low ->
  bus_reply env (S (bus_n w)) = Some high ->
  let v := Z.lor low (Z.shiftl high 8) in
  let decoded := if v <? 32768 then v else v - 65536 in
  0 <= v < 65536 /\
  snd (readAccAxis rm env axis w) = Returned decoded /\
  snd (readMagAxis rm env axis w) = Returned decoded /\
  snd (readGyrAxis rm env axis w) = Returned decoded /\
  -32768 <= decoded <= 32767 /\
  (v = 32767 -> decoded = 32767) /\
  (v = 32768 -> decoded = -32768) /\
  (v = 65535 -> decoded = -1) /\
  (v = 0 -> decoded = 0).
Proof.
  intros (Hacc & Hmag & Hgyr) Hax Hlow Hhigh Hl Hh v decoded.
  assert (Hv : 0 <= v < 65536).
  { unfold v. rewrite lor_bytes_add by lia. lia. }
  split; [exact Hv |].
  rewrite (readAccAxis_ok rm env axis w low high Hacc Hax Hl Hh).
  rewrite (readMagAxis_ok rm env axis w low high Hmag Hax Hl Hh).
  rewrite (readGyrAxis_ok rm env axis w low high Hacc Hax Hl Hh).
  repeat split; try reflexivity;
    try (apply (to_signed_range v Hv));
    intros E; subst decoded; rewrite E; reflexivity.
Qed.

(** The bytes 0 and 128 read on the gyroscope's z axis give -32768. *)
Lemma axis_reads_decode_twos_complement_witness :
  snd (readGyrAxis LSM9DS0 (healthy_env (fun k => Z.of_nat k * 128) (fun _ => 0)) 2
         (world_of all_active)) = Returned (-32768).
Proof.
  apply (axis_reads_decode_twos_complement LSM9DS0
           (healthy_env (fun k => Z.of_nat k * 128) (fun _ => 0)) 2 0 128
           (world_of all_active)).
  - repeat split.
  - simpl; tauto.
  - lia.
  - lia.
  - reflexivity.
  - reflexivity.
Defined.

(** C2.  The code at frequency 10 and rotation period 2, cancelled after 40
    samples: the task ends normally having sent 40 samples, but it opened
    a file for every sample, [data_0.txt] .. [data_19.txt] and then the
    same twenty names again, and only one line was written before
    [data_1.txt] was opened. *)
Theorem rotation_opens_a_file_per_sample :
  let task := _take_measurements LSM9DS0 (healthy_env ramp (cancel_from 40)) 5 10
                "data" (Some 2) 0 1 (world_of all_active) in
  snd task = Returned tt /\
  sends (trace (fst task)) = 40%nat /\
  opened (trace (fst task)) =
    map (fun k => file_path "data" (Z.of_nat k)) (seq 0 20 ++ seq 0 20) /\
  writes_before "data_1.txt" (trace (fst task)) = 1%nat.
Proof. vm_compute. repeat split. Qed.

(** C3.  Without a rotation period, a task that finds the shared flag at 0
    when it starts never takes a sample: whatever the fuel, it is still
    running, and all it has done is the first read of the flag. *)
Theorem no_rotation_never_samples
    rm env fuel freq file_name exit_flag pipe w :
  exit_flag_value env (flag_n w) = 0 ->
  _take_measurements rm env fuel freq file_name None exit_flag pipe w =
  (observe w 0 1 0 0 [FlagRead exit_flag], Running).
Proof.
  intros Hzero. unfold _take_measurements, try_except, measurements_body.
  rewrite (bind_returned _ _ _ _ _ (read_exit_flag_eq _ _ _)), Hzero.
  assert (H : forall n w1,
             while_loop rm env n freq file_name None exit_flag pipe 0 w1
             = (w1, Running)).
  { induction n as [| n IH]; intros w1; [reflexivity | apply IH]. }
  unfold bind. rewrite H. reflexivity.
Qed.

(** A task at frequency 5 without rotation, after a thousand passes of its
    loop. *)
Lemma no_rotation_never_samples_witness :
  _take_measurements LSM9DS0 (healthy_env ramp (cancel_from 3)) 1000 5 "data"
    None 0 1 (world_of all_active) =
  (mkWorld all_active 0 1 0 0 0 0 [FlagRead 0], Running).
Proof.
  apply (no_rotation_never_samples LSM9DS0 (healthy_env ramp (cancel_from 3))
           1000 5 "data" 0 1 (world_of all_active)).
  reflexivity.
Defined.

(** C4.  The code on inactive sensors.  A magnetometer read with the
    magnetometer flag off raises a SensorInactiveError that names the
    accelerometer.  A gyroscope read looks at the accelerometer flag: with
    that flag off it raises, again naming the accelerometer, whatever the
    gyroscope flag is; with that flag on and the gyroscope flag off it
    reads the bus and returns a value. *)
Theorem inactive_error_names_accelerometer_and_gyro_reads_acc_flag
    rm env axis processes flags acc gyr mag :
  readMagAxis rm env axis (world_of (mkIMU processes flags acc gyr false)) =
  (world_of (mkIMU processes flags acc gyr false),
   Raised (SensorInactiveError "Accelerometer")) /\
  readGyrAxis rm env axis (world_of (mkIMU processes flags false gyr mag)) =
  (world_of (mkIMU processes flags false gyr mag),
   Raised (SensorInactiveError "Accelerometer")) /\
  snd (readGyrAxis rm (healthy_env ramp (fun _ => 0)) 0
         (world_of (mkIMU processes flags true false mag))) = Returned 9472.
Proof. repeat split. Qed.

(** C5 as stated fails: on a fresh object, whose sensors are inactive, the
    accelerometer read of axis 7 raises SensorInactiveError, not
    ValueError. *)
Lemma inactive_sensor_masks_invalid_axis :
  ~ In 7 [0; 1; 2] /\
  snd (readAccAxis LSM9DS0 (healthy_env ramp (fun _ => 0)) 7 (world_of init_IMU))
  = Raised (SensorInactiveError "Accelerometer") /\
  forall message,
    snd (readAccAxis LSM9DS0 (healthy_env ramp (fun _ => 0)) 7 (world_of init_IMU))
    <> Raised (ValueError message).
Proof.
  split; [| split].
  - cbn. intros [H | [H | [H | []]]]; discriminate.
  - reflexivity.
  - intros message. discriminate.
Qed.

(** C5, amended.  The active flag is tested before the axis.  For an axis
    outside 0, 1, 2 and flags in which accelerometer and gyroscope agree (as
    they do after [__init__], [setup_default] and [reset_registers]): a
    read on an active sensor raises ValueError without touching the bus,
    and a read on an inactive sensor raises SensorInactiveError. *)
Theorem invalid_axis_rejected_after_active_check rm env axis w :
  ~ In axis [0; 1; 2] ->
  _gyr_active (self w) = _acc_active (self w) ->
  (_acc_active (self w) = true ->
   readAccAxis rm env axis w = (w, Raised (ValueError axis_message))) /\
  (_mag_active (self w) = true ->
   readMagAxis rm env axis w = (w, Raised (ValueError axis_message))) /\
  (_gyr_active (self w) = true ->
   readGyrAxis rm env axis w = (w, Raised (ValueError axis_message))) /\
  (_acc_active (self w) = false ->
   exists sensor,
     readAccAxis rm env axis w = (w, Raised (SensorInactiveError sensor))) /\
  (_mag_active (self w) = false ->
   exists sensor,
     readMagAxis rm env axis w = (w, Raised (SensorInactiveError sensor))) /\
  (_gyr_active (self w) = false ->
   exists sensor,
     readGyrAxis rm env axis w = (w, Raised (SensorInactiveError sensor))).
Proof.
  intros Hax Hsame.
  assert (H0 : (axis =? 0) = false)
    by (apply Z.eqb_neq; intros ->; apply Hax; cbn; tauto).
  assert (H1 : (axis =? 1) = false)
    by (apply Z.eqb_neq; intros ->; apply Hax; cbn; tauto).
  assert (H2 : (axis =? 2) = false)
    by (apply Z.eqb_neq; intros ->; apply Hax; cbn; tauto).
  unfold readAccAxis, readMagAxis, readGyrAxis, bind, get_self.
  rewrite H0, H1, H2, Hsame.
  repeat split; intros ->; cbn; try reflexivity;
    exists "Accelerometer"%string; reflexivity.
Qed.

(** Axis 3 on the active gyroscope. *)
Lemma invalid_axis_rejected_after_active_check_witness :
  readGyrAxis LSM9DS0 (healthy_env ramp (fun _ => 0)) 3 (world_of all_active) =
  (world_of all_active, Raised (ValueError axis_message)).
Proof.
  apply (invalid_axis_rejected_after_active_check LSM9DS0
           (healthy_env ramp (fun _ => 0)) 3 (world_of all_active)).
  - cbn. intros [H | [H | [H | []]]]; discriminate.
  - reflexivity.
  - reflexivity.
Defined.






(** A bus failure in the first sample leaves the task as an OSError. *)
Lemma bus_error_propagates :
  _take_measurements LSM9DS0 bus_down 3 10 "data" (Some 2) 0 1
    (world_of all_active) =
  (mkWorld all_active 1 1 1 0 0 0
     [FlagRead 0; FileOpen "data_0.txt"; BusRead 30 40; FileClose "data_0.txt"],
   Raised (OSError Bus)).
Proof. reflexivity. Qed.

(** A failed write of the first line leaves the task as an OSError. *)
Lemma file_error_propagates :
  snd (_take_measurements LSM9DS0 disk_full 3 10 "data" (Some 2) 0 1
         (world_of all_active)) = Raised (OSError File) /\
  closes (trace (fst (_take_measurements LSM9DS0 disk_full 3 10 "data" (Some 2)
                        0 1 (world_of all_active)))) = 0%nat.
Proof. split; reflexivity. Qed.

(** C8.  [take_measurements_process] appends the new process and its flag
    at the end of the tracked lists.  [end_measurements_processes] first
    writes 1 to every tracked flag, in list order, then, for every tracked
    process in list order, joins it (no timeout, no look at its exit
    status) and prints its index; this is the whole of what it does when
    every join returns.  A join that does not return blocks it for ever. *)
Theorem shutdown_sets_flags_then_joins_in_order env w :
  (forall freq file_name cut,
     let w1 := fst (take_measurements_process freq file_name cut w) in
     exists p,
       _processes (self w1) = _processes (self w) ++ [p] /\
       _flags (self w1) = _flags (self w) ++ [p_exit_flag p] /\
       trace w1 = trace w ++ [ProcessStart p]) /\
  ((forall k, (k < List.length (_processes (self w)))%nat ->
              join_returns env (k + join_n w) = true) ->
   end_measurements_processes env w =
   (joined w (List.length (_processes (self w)))
      (map (fun flag => FlagWrite flag 1) (_flags (self w)) ++
       join_events 0 (_processes (self w))),
    Returned tt)) /\
  (forall p rest,
     _processes (self w) = p :: rest ->
     join_returns env (join_n w) = false ->
     snd (end_measurements_processes env w) = Running).
Proof.
  split; [| split].
  - intros freq file_name cut.
    eexists. cbn. repeat split.
  - intros H. unfold end_measurements_processes, bind at 1, get_self.
    rewrite (bind_returned _ _ _ _ _ (set_flags_eq _ _)).
    unfold bind at 1. cbn [fst snd observe self].
    rewrite join_processes_ok by exact H.
    unfold joined. cbn. rewrite app_assoc. reflexivity.
  - intros p rest Hp Hblock.
    unfold end_measurements_processes, bind at 1, get_self.
    rewrite (bind_returned _ _ _ _ _ (set_flags_eq _ _)).
    unfold bind at 1. cbn [fst snd observe self]. rewrite Hp.
    cbn [join_processes]. unfold bind at 1, join. cbn [join_n observe].
    rewrite Hblock. reflexivity.
Qed.

(** Two tasks started, then shut down. *)
Lemma shutdown_sets_flags_then_joins_in_order_witness :
  trace (fst (end_measurements_processes (healthy_env ramp (fun _ => 0))
                two_launched)) =
  [ProcessStart (mkProcess 2 5 "a" None 0 1);
   ProcessStart (mkProcess 5 10 "b" (Some 2) 3 4);
   FlagWrite 0 1; FlagWrite 3 1;
   ProcessJoin (mkProcess 2 5 "a" None 0 1); Print "IMU Process 0 joined";
   ProcessJoin (mkProcess 5 10 "b" (Some 2) 3 4); Print "IMU Process 1 joined"].
Proof.
  rewrite (proj1 (proj2 (shutdown_sets_flags_then_joins_in_order
                           (healthy_env ramp (fun _ => 0)) two_launched))).
  - reflexivity.
  - intros k _. reflexivity.
Defined.



(** C10.  A configuration write that the bus accepts makes [writeReg]
    return -1, for every address, register and value; its only effect is
    the bus write. *)
Theorem writeReg_returns_minus_one env address register value w :
  bus_reply env (bus_n w) <> None ->
  writeReg env address register value w =
  (observe w 1 0 0 0 [BusWrite address register value], Returned (-1)).
Proof.
  intros H. unfold writeReg, bind, write_byte_data, ret.
  destruct (bus_reply env (bus_n w)); [reflexivity | congruence].
Qed.

(** The first write of [setup_default]. *)
Lemma writeReg_returns_minus_one_witness :
  snd (writeReg (healthy_env (fun _ => 0) (fun _ => 0)) 30 32 103
         (world_of init_IMU)) = Returned (-1).
Proof.
  rewrite (writeReg_returns_minus_one
             (healthy_env (fun _ => 0) (fun _ => 0)) 30 32 103 (world_of init_IMU)).
  - reflexivity.
  - discriminate.
Defined.

(** * Further properties of the code *)

(** X1.  Every value of -32768..32767 is what the axis reads decode from its
    two's-complement bytes: the low byte [s mod 256] and the high byte
    [(s / 256) mod 256] are bytes and decode back to [s]. *)
Theorem every_signed_value_is_decoded_from_its_bytes s :
  -32768 <= s <= 32767 ->
  let low := s mod 256 in
  let high := (s / 256) mod 256 in
  0 <= low <= 255 /\ 0 <= high <= 255 /\ to_signed (combined low high) = s.
Proof.
  intros Hs low high.
  assert (Hl : 0 <= low < 256) by (apply Z.mod_pos_bound; lia).
  assert (Hh : 0 <= high < 256) by (apply Z.mod_pos_bound; lia).
  repeat split; try lia.
  unfold combined. rewrite lor_bytes_add by lia.
  unfold to_signed, low, high in *.
  destruct (Z.ltb_spec (s mod 256 + 256 * ((s / 256) mod 256)) 32768);
    Z.to_euclidean_division_equations; lia.
Qed.

Lemma every_signed_value_is_decoded_from_its_bytes_witness :
  to_signed (combined 254 255) = -2.
Proof.
  apply (every_signed_value_is_decoded_from_its_bytes (-2)). lia.
Defined.

(** X2.  Two byte pairs that decode to the same value are the same pair. *)
Theorem decoding_is_injective_on_bytes l h l' h' :
  0 <= l <= 255 -> 0 <= h <= 255 -> 0 <= l' <= 255 -> 0 <= h' <= 255 ->
  to_signed (combined l h) = to_signed (combined l' h') ->
  l = l' /\ h = h'.
Proof.
  intros Hl Hh Hl' Hh'. unfold combined.
  rewrite !lor_bytes_add by lia. unfold to_signed.
  destruct (Z.ltb_spec (l + 256 * h) 32768);
    destruct (Z.ltb_spec (l' + 256 * h') 32768); lia.
Qed.

Lemma decoding_is_injective_on_bytes_witness :
  1 = 1 /\ 128 = 128.
Proof.
  apply (decoding_is_injective_on_bytes 1 128 1 128); lia.
Defined.

Section Extends.

Variable P : list Event -> Prop.
Hypothesis P_nil : P [].
Hypothesis P_app : forall a b, P a -> P b -> P (a ++ b).

Lemma extends_ret {A} (a : A) : extends P (ret a).
Proof. intros w. split; [reflexivity |]. exists []. cbn. rewrite app_nil_r. auto. Qed.

Lemma extends_raise {A} e : extends P (@raise A e).
Proof. intros w. split; [reflexivity |]. exists []. cbn. rewrite app_nil_r. auto. Qed.

Lemma extends_running {A} : extends P (@running A).
Proof. intros w. split; [reflexivity |]. exists []. cbn. rewrite app_nil_r. auto. Qed.

Lemma extends_get_self : extends P get_self.
Proof. intros w. split; [reflexivity |]. exists []. cbn. rewrite app_nil_r. auto. Qed.

Lemma extends_bind {A B} (m : M A) (f : A -> M B) :
  extends P m -> (forall a, extends P (f a)) -> extends P (bind m f).
Proof.
  intros Hm Hf w. unfold bind.
  destruct (Hm w) as (Hs & evs & Ht & Hc).
  destruct (m w) as [w1 [a | e |]]; cbn [fst] in *.
  - destruct (Hf a w1) as (Hs' & evs' & Ht' & Hc').
    split; [congruence |].
    exists (evs ++ evs'). rewrite Ht', Ht, app_assoc. auto.
  - split; [exact Hs |]. exists evs. auto.
  - split; [exact Hs |]. exists evs. auto.
Qed.

Lemma extends_one {A} (e : Event) (step : World -> World * Result A) :
  P [e] ->
  (forall w, self (fst (step w)) = self w /\ trace (fst (step w)) = trace w ++ [e]) ->
  extends P step.
Proof.
  intros He H w. destruct (H w) as [Hs Ht]. split; [exact Hs |].
  exists [e]. auto.
Qed.

Lemma extends_try_except {A} (body : M A) handler :
  extends P body ->
  (forall e h, handler e = Some h -> extends P h) ->
  extends P (try_except body handler).
Proof.
  intros Hb Hh w. unfold try_except.
  destruct (Hb w) as (Hs & evs & Ht & Hc).
  destruct (body w) as [w1 [a | e |]]; cbn [fst] in *.
  - split; [exact Hs |]. exists evs. auto.
  - destruct (handler e) as [h |] eqn:E.
    + destruct (Hh e h E w1) as (Hs' & evs' & Ht' & Hc').
      split; [congruence |].
      exists (evs ++ evs'). rewrite Ht', Ht, app_assoc. auto.
    + split; [exact Hs |]. exists evs. auto.
  - split; [exact Hs |]. exists evs. auto.
Qed.

End Extends.

Lemma confined_ret ok {A} (a : A) : confined ok (ret a).
Proof. apply extends_ret. reflexivity. Qed.

Lemma confined_raise ok {A} e : confined ok (@raise A e).
Proof. apply extends_raise. reflexivity. Qed.

Lemma confined_get_self ok : confined ok get_self.
Proof. apply extends_get_self. reflexivity. Qed.

Lemma confined_bind ok {A B} (m : M A) (f : A -> M B) :
  confined ok m -> (forall a, confined ok (f a)) -> confined ok (bind m f).
Proof.
  apply extends_bind. intros a b Ha Hb. rewrite forallb_app, Ha, Hb. reflexivity.
Qed.

Lemma confined_one ok {A} (e : Event) (step : World -> World * Result A) :
  ok e = true ->
  (forall w, self (fst (step w)) = self w /\ trace (fst (step w)) = trace w ++ [e]) ->
  confined ok step.
Proof.
  intros He. apply extends_one. cbn. rewrite He. reflexivity.
Qed.

Lemma confined_read_byte_data ok env address register :
  ok (BusRead address register) = true ->
  confined ok (read_byte_data env address register).
Proof.
  intros He. apply (confined_one ok (BusRead address register)); [exact He |].
  intros w. unfold read_byte_data. destruct (bus_reply env (bus_n w)); auto.
Qed.

Ltac confined_axis :=
  apply confined_bind; [apply confined_get_self |]; intros s;
  destruct (negb _); [apply confined_raise |];
  apply confined_bind;
  [ repeat (match goal with |- confined _ (if ?b then _ else _) => destruct b end);
    (apply confined_ret || apply confined_raise)
  | intros regs; apply confined_bind;
    [apply confined_read_byte_data; reflexivity |]; intros lo;
    apply confined_bind; [apply confined_read_byte_data; reflexivity |];
    intros hi; apply confined_ret ].

Lemma confined_readAccAxis rm env axis : confined is_bus_read (readAccAxis rm env axis).
Proof. unfold readAccAxis. confined_axis. Qed.

Lemma confined_readMagAxis rm env axis : confined is_bus_read (readMagAxis rm env axis).
Proof. unfold readMagAxis. confined_axis. Qed.

Lemma confined_readGyrAxis rm env axis : confined is_bus_read (readGyrAxis rm env axis).
Proof. unfold readGyrAxis. confined_axis. Qed.

Ltac confined_three :=
  repeat (apply confined_bind;
          [ first [apply confined_readAccAxis | apply confined_readMagAxis
                  | apply confined_readGyrAxis] | intros ? ]);
  apply confined_ret.

Lemma confined_readAcc rm env : confined is_bus_read (readAcc rm env).
Proof. unfold readAcc. confined_three. Qed.

Lemma confined_readMag rm env : confined is_bus_read (readMag rm env).
Proof. unfold readMag. confined_three. Qed.

Lemma confined_readGyr rm env : confined is_bus_read (readGyr rm env).
Proof. unfold readGyr. confined_three. Qed.

(** X3.  The single-axis reads and [readAcc], [readMag], [readGyr] never
    change the object and emit nothing but bus reads, however they end. *)
Theorem reads_only_read_the_bus rm env :
  (forall axis, confined is_bus_read (readAccAxis rm env axis)) /\
  (forall axis, confined is_bus_read (readMagAxis rm env axis)) /\
  (forall axis, confined is_bus_read (readGyrAxis rm env axis)) /\
  confined is_bus_read (readAcc rm env) /\
  confined is_bus_read (readMag rm env) /\
  confined is_bus_read (readGyr rm env).
Proof.
  repeat apply conj.
  - apply confined_readAccAxis.
  - apply confined_readMagAxis.
  - apply confined_readGyrAxis.
  - apply confined_readAcc.
  - apply confined_readMag.
  - apply confined_readGyr.
Qed.

Lemma writeReg_ok env address register value w :
  bus_reply env (bus_n w) <> None ->
  writeReg env address register value w =
  (observe w 1 0 0 0 [BusWrite address register value], Returned (-1)).
Proof.
  intros H. unfold writeReg, bind, write_byte_data, ret.
  destruct (bus_reply env (bus_n w)); [reflexivity | congruence].
Qed.

Lemma writeReg_fail env address register value w :
  bus_reply env (bus_n w) = None ->
  writeReg env address register value w =
  (observe w 1 0 0 0 [BusWrite address register value], Raised (OSError Bus)).
Proof.
  intros H. unfold writeReg, bind, write_byte_data, ret.
  rewrite H. reflexivity.
Qed.

Lemma write_all_then_ok {A} env (k : M A) triples : forall w,
  (forall i, (i < List.length triples)%nat ->
             bus_reply env (i + bus_n w) <> None) ->
  write_all_then env triples k w =
  k (observe w (List.length triples) 0 0 0 (map write_event triples)).
Proof.
  induction triples as [| [[a r] v] rest IH]; intros w H; cbn [write_all_then].
  - cbn. rewrite observe_nil. reflexivity.
  - rewrite (bind_returned _ _ _ _ _
               (writeReg_ok env a r v w (H 0%nat ltac:(cbn; lia)))).
    rewrite IH.
    + rewrite observe_observe. f_equal. apply observe_ext; cbn; try lia.
      reflexivity.
    + intros i Hi. cbn [observe bus_n].
      replace (i + (1 + bus_n w))%nat with (S i + bus_n w)%nat by lia.
      apply H. cbn. lia.
Qed.

Lemma write_all_then_fail {A} env (k : M A) triples : forall w n,
  (n < List.length triples)%nat ->
  (forall i, (i < n)%nat -> bus_reply env (i + bus_n w) <> None) ->
  bus_reply env (n + bus_n w) = None ->
  write_all_then env triples k w =
  (observe w (S n) 0 0 0 (firstn (S n) (map write_event triples)),
   Raised (OSError Bus)).
Proof.
  induction triples as [| [[a r] v] rest IH]; intros w n Hn Hok Hfail;
    cbn [write_all_then List.length] in *; [lia |].
  destruct n as [| n'].
  - rewrite (bind_raised _ _ _ _ _ (writeReg_fail env a r v w Hfail)).
    reflexivity.
  - rewrite (bind_returned _ _ _ _ _
               (writeReg_ok env a r v w (Hok 0%nat ltac:(lia)))).
    rewrite (IH _ n').
    + rewrite observe_observe. f_equal. apply observe_ext; try lia.
      reflexivity.
    + lia.
    + intros i Hi. cbn [observe bus_n].
      replace (i + (1 + bus_n w))%nat with (S i + bus_n w)%nat by lia.
      apply Hok. lia.
    + cbn [observe bus_n].
      replace (n' + (1 + bus_n w))%nat with (S n' + bus_n w)%nat by lia.
      exact Hfail.
Qed.

Lemma setup_default_ok rm env w :
  (forall i, (i < 7)%nat -> bus_reply env (i + bus_n w) <> None) ->
  setup_default rm env w =
  (with_self (observe w 7 0 0 0 (map write_event (setup_list rm)))
             (with_flags (self w) true), Returned tt).
Proof.
  intros H.
  change (setup_default rm env)
    with (write_all_then env (setup_list rm) (set_active true true true)).
  rewrite write_all_then_ok by exact H. reflexivity.
Qed.

Lemma reset_registers_ok rm env w :
  (forall i, (i < 7)%nat -> bus_reply env (i + bus_n w) <> None) ->
  reset_registers rm env w =
  (with_self (observe w 7 0 0 0 (map write_event (reset_list rm)))
             (with_flags (self w) false), Returned tt).
Proof.
  intros H.
  change (reset_registers rm env)
    with (write_all_then env (reset_list rm) (set_active false false false)).
  rewrite write_all_then_ok by exact H. reflexivity.
Qed.

Lemma read_bundle_ok rm env bytes w :
  all_on (self w) -> replies env bytes w 18 ->
  read_bundle rm env w =
  (observe w 18 0 0 0
     (sensor_reads (ACC_ADDRESS rm) (out_A rm) ++
      sensor_reads (MAG_ADDRESS rm) (out_M rm) ++
      sensor_reads (GYR_ADDRESS rm) (out_G rm)),
   Returned [reading bytes (bus_n w); reading bytes (6 + bus_n w);
             reading bytes (12 + bus_n w)]).
Proof.
  intros (Hacc & Hmag & Hgyr) Hbus. unfold read_bundle.
  erewrite bind_returned
    by (apply readAcc_ok; [exact Hacc | intros i Hi; apply Hbus; lia]).
  erewrite bind_returned
    by (apply readMag_ok;
        [exact Hmag | apply replies_shift with (rest := 12%nat); [exact Hbus | lia]]).
  rewrite observe_observe.
  erewrite bind_returned
    by (apply readGyr_ok;
        [exact Hacc | apply replies_shift with (rest := 6%nat); [exact Hbus | lia]]).
  rewrite observe_observe. unfold ret. cbn [observe bus_n Nat.add].
  rewrite <- app_assoc. reflexivity.
Qed.

(** X6.  After a [setup_default] whose seven writes succeed, whatever the
    flags were before, the three sensors can be read: the readings are
    decoded from the next eighteen bus bytes. *)
Theorem setup_default_then_reads_succeed rm env bytes w :
  (forall i, (i < 7)%nat -> bus_reply env (i + bus_n w) <> None) ->
  (forall i, (7 <= i < 25)%nat ->
             bus_reply env (i + bus_n w) = Some (bytes (i + bus_n w)%nat)) ->
  snd (bind (setup_default rm env) (fun _ => read_bundle rm env) w) =
  Returned [reading bytes (7 + bus_n w); reading bytes (13 + bus_n w);
            reading bytes (19 + bus_n w)].
Proof.
  intros Hw Hr.
  rewrite (bind_returned _ _ _ _ _ (setup_default_ok rm env w Hw)).
  rewrite (read_bundle_ok rm env bytes).
  - reflexivity.
  - repeat split.
  - intros i Hi. cbn [with_self observe bus_n].
    replace (i + (7 + bus_n w))%nat with ((i + 7) + bus_n w)%nat by lia.
    apply Hr. lia.
Qed.

Lemma setup_default_then_reads_succeed_witness :
  snd (bind (setup_default LSM9DS0 (healthy_env ramp (fun _ => 0)))
            (fun _ => read_bundle LSM9DS0 (healthy_env ramp (fun _ => 0)))
            (world_of init_IMU)) =
  Returned [mkReading 10243 29261 (-17257); mkReading 1761 20523 (-25995);
            mkReading (-6977) 11785 30803].
Proof.
  apply (setup_default_then_reads_succeed LSM9DS0 (healthy_env ramp (fun _ => 0))
           ramp (world_of init_IMU)).
  - intros i _. discriminate.
  - intros i _. reflexivity.
Defined.

(** X7.  After a [reset_registers] whose seven writes succeed, whatever the
    flags were before, every axis read raises SensorInactiveError and
    leaves the bus alone: the trace holds the seven writes only. *)
Theorem reset_registers_then_reads_fail rm env axis w :
  (forall i, (i < 7)%nat -> bus_reply env (i + bus_n w) <> None) ->
  let w' := with_self (observe w 7 0 0 0 (map write_event (reset_list rm)))
                      (with_flags (self w) false) in
  bind (reset_registers rm env) (fun _ => readAccAxis rm env axis) w =
    (w', Raised (SensorInactiveError "Accelerometer")) /\
  bind (reset_registers rm env) (fun _ => readMagAxis rm env axis) w =
    (w', Raised (SensorInactiveError "Accelerometer")) /\
  bind (reset_registers rm env) (fun _ => readGyrAxis rm env axis) w =
    (w', Raised (SensorInactiveError "Accelerometer")).
Proof.
  intros Hw w'.
  rewrite !(bind_returned _ _ _ _ _ (reset_registers_ok rm env w Hw)).
  repeat split.
Qed.

Lemma reset_registers_then_reads_fail_witness :
  snd (bind (reset_registers LSM9DS0 (healthy_env ramp (fun _ => 0)))
            (fun _ => readMagAxis LSM9DS0 (healthy_env ramp (fun _ => 0)) 1)
            (world_of all_active)) =
  Raised (SensorInactiveError "Accelerometer").
Proof.
  assert (H : forall i, (i < 7)%nat ->
             bus_reply (healthy_env ramp (fun _ => 0))
                       (i + bus_n (world_of all_active)) <> None)
    by (intros i _; discriminate).
  rewrite (proj1 (proj2 (reset_registers_then_reads_fail LSM9DS0
             (healthy_env ramp (fun _ => 0)) 1 (world_of all_active) H))).
  reflexivity.
Defined.

(** X8.  When write number [n] (from 0) of [setup_default] or
    [reset_registers] fails, the call raises OSError, the writes before it
    stay done, no later write is tried, and the object, flags included,
    is as it was. *)
Theorem failed_configuration_write_leaves_flags rm env w n :
  (n < 7)%nat ->
  (forall i, (i < n)%nat -> bus_reply env (i + bus_n w) <> None) ->
  bus_reply env (n + bus_n w) = None ->
  setup_default rm env w =
    (observe w (S n) 0 0 0 (firstn (S n) (map write_event (setup_list rm))),
     Raised (OSError Bus)) /\
  reset_registers rm env w =
    (observe w (S n) 0 0 0 (firstn (S n) (map write_event (reset_list rm))),
     Raised (OSError Bus)).
Proof.
  intros Hn Hok Hfail. split.
  - change (setup_default rm env)
      with (write_all_then env (setup_list rm) (set_active true true true)).
    apply write_all_then_fail; auto.
  - change (reset_registers rm env)
      with (write_all_then env (reset_list rm) (set_active false false false)).
    apply write_all_then_fail; auto.
Qed.

Lemma failed_configuration_write_leaves_flags_witness :
  setup_default LSM9DS0 third_write_fails (world_of init_IMU) =
  (mkWorld init_IMU 3 0 0 0 0 0
     [BusWrite 30 32 103; BusWrite 30 33 32; BusWrite 30 36 240],
   Raised (OSError Bus)).
Proof.
  apply (failed_configuration_write_leaves_flags LSM9DS0 third_write_fails
           (world_of init_IMU) 2).
  - lia.
  - intros i Hi. destruct i as [| [| i]]; [discriminate | discriminate | lia].
  - reflexivity.
Defined.

Lemma write_all_then_ret env triples : forall w,
  self (fst (write_all_then env triples (ret tt) w)) = self w /\
  (snd (write_all_then env triples (ret tt) w) = Returned tt \/
   snd (write_all_then env triples (ret tt) w) = Raised (OSError Bus)).
Proof.
  induction triples as [| [[a r] v] rest IH]; intros w; cbn [write_all_then].
  - cbn. auto.
  - unfold bind at 1 2 3.
    destruct (bus_reply env (bus_n w)) eqn:E.
    + rewrite (writeReg_ok env a r v w) by congruence.
      destruct (IH (observe w 1 0 0 0 [BusWrite a r v])) as [Hs Hr].
      split; [exact Hs | exact Hr].
    + rewrite (writeReg_fail env a r v w E). cbn. auto.
Qed.

(** X9.  [writeReg] never sets an active flag: on an object whose sensors are
    inactive, after any sequence of [writeReg] calls, an axis read still
    raises SensorInactiveError (or the sequence itself failed on the bus). *)
Theorem writeReg_alone_never_activates rm env triples axis w :
  all_off (self w) ->
  let script read := snd (bind (write_all_then env triples (ret tt))
                               (fun _ => read) w) in
  (script (readAccAxis rm env axis) = Raised (SensorInactiveError "Accelerometer") \/
   script (readAccAxis rm env axis) = Raised (OSError Bus)) /\
  (script (readMagAxis rm env axis) = Raised (SensorInactiveError "Accelerometer") \/
   script (readMagAxis rm env axis) = Raised (OSError Bus)) /\
  (script (readGyrAxis rm env axis) = Raised (SensorInactiveError "Accelerometer") \/
   script (readGyrAxis rm env axis) = Raised (OSError Bus)).
Proof.
  intros (Hacc & Hmag & Hgyr) script. subst script. cbv beta.
  unfold bind at 1 2 3 4 5 6.
  destruct (write_all_then_ret env triples w) as [Hs Hr].
  destruct (write_all_then env triples (ret tt) w) as [w1 r].
  cbn [fst snd] in *.
  destruct Hr as [-> | ->].
  - unfold readAccAxis, readMagAxis, readGyrAxis, bind, get_self.
    rewrite Hs, Hacc, Hmag. cbn. auto.
  - cbn. auto.
Qed.

Lemma writeReg_alone_never_activates_witness :
  snd (bind (write_all_then (healthy_env ramp (fun _ => 0))
               (setup_list LSM9DS0) (ret tt))
            (fun _ => readAccAxis LSM9DS0 (healthy_env ramp (fun _ => 0)) 0)
            (world_of init_IMU)) =
  Raised (SensorInactiveError "Accelerometer").
Proof.
  destruct (proj1 (writeReg_alone_never_activates LSM9DS0
                     (healthy_env ramp (fun _ => 0)) (setup_list LSM9DS0) 0
                     (world_of init_IMU) ltac:(repeat split))) as [H | H].
  - exact H.
  - discriminate H.
Defined.

Lemma decoded_in_range l h :
  0 <= l <= 255 -> 0 <= h <= 255 -> in_int16 (to_signed (combined l h)).
Proof.
  intros Hl Hh. apply to_signed_range. unfold combined.
  rewrite lor_bytes_add by lia. lia.
Qed.

(** X5.  With the sensors active and a bus that answers bytes, the three
    readings of a sample have all their fields in -32768..32767. *)
Theorem readings_are_signed_16_bit rm env bytes w :
  all_on (self w) -> replies env bytes w 18 ->
  (forall k, 0 <= bytes k <= 255) ->
  exists acc mag gyr,
    snd (read_bundle rm env w) = Returned [acc; mag; gyr] /\
    Forall (fun r => in_int16 (x r) /\ in_int16 (y r) /\ in_int16 (z r))
           [acc; mag; gyr].
Proof.
  intros Hon Hbus Hbytes.
  rewrite (read_bundle_ok rm env bytes w Hon Hbus). cbn [snd].
  do 3 eexists. split; [reflexivity |].
  repeat constructor; cbn [x y z reading]; apply decoded_in_range; auto.
Qed.

Lemma readings_are_signed_16_bit_witness :
  exists acc mag gyr,
    snd (read_bundle LSM9DS0 (healthy_env ramp (fun _ => 0)) (world_of all_active))
    = Returned [acc; mag; gyr] /\
    Forall (fun r => in_int16 (x r) /\ in_int16 (y r) /\ in_int16 (z r))
           [acc; mag; gyr].
Proof.
  apply (readings_are_signed_16_bit LSM9DS0 (healthy_env ramp (fun _ => 0)) ramp
           (world_of all_active)).
  - repeat split.
  - intros i _. reflexivity.
  - intros k. unfold ramp.
    pose proof (Nat.mod_upper_bound (k * 37) 256 ltac:(discriminate)). lia.
Defined.

Lemma read_byte_data_fail env address register w :
  bus_reply env (bus_n w) = None ->
  read_byte_data env address register w =
  (observe w 1 0 0 0 [BusRead address register], Raised (OSError Bus)).
Proof. intros H. unfold read_byte_data. rewrite H. reflexivity. Qed.

Lemma read_pair_fail env address regs w :
  (bus_reply env (bus_n w) = None ->
   bind (read_byte_data env address (fst regs))
        (fun lo => bind (read_byte_data env address (snd regs))
                        (fun hi => ret (to_signed (combined lo hi)))) w =
   (observe w 1 0 0 0 [BusRead address (fst regs)], Raised (OSError Bus))) /\
  (bus_reply env (bus_n w) <> None -> bus_reply env (S (bus_n w)) = None ->
   bind (read_byte_data env address (fst regs))
        (fun lo => bind (read_byte_data env address (snd regs))
                        (fun hi => ret (to_signed (combined lo hi)))) w =
   (observe w 2 0 0 0 (pair_reads address regs), Raised (OSError Bus))).
Proof.
  split.
  - intros H. apply bind_raised. apply read_byte_data_fail. exact H.
  - intros H1 H2. destruct (bus_reply env (bus_n w)) as [b |] eqn:E; [| congruence].
    rewrite (bind_returned _ _ _ _ _ (read_byte_data_ok env _ _ w b E)).
    rewrite (bind_raised _ _ _ _ _
               (read_byte_data_fail env _ _ (observe w 1 0 0 0 _) H2)).
    rewrite observe_observe. reflexivity.
Qed.

(** X4.  On an active sensor and a valid axis, a failing bus transaction ends
    the axis read with an OSError at once: after one read when the low
    byte fails, after two when the high byte fails.  Nothing is retried. *)
Theorem bus_failure_aborts_axis_read rm env axis w :
  all_on (self w) -> In axis [0; 1; 2] ->
  (bus_reply env (bus_n w) = None ->
   readAccAxis rm env axis w =
     (observe w 1 0 0 0 [BusRead (ACC_ADDRESS rm) (fst (out_A rm axis))],
      Raised (OSError Bus)) /\
   readMagAxis rm env axis w =
     (observe w 1 0 0 0 [BusRead (MAG_ADDRESS rm) (fst (out_M rm axis))],
      Raised (OSError Bus)) /\
   readGyrAxis rm env axis w =
     (observe w 1 0 0 0 [BusRead (GYR_ADDRESS rm) (fst (out_G rm axis))],
      Raised (OSError Bus))) /\
  (bus_reply env (bus_n w) <> None -> bus_reply env (S (bus_n w)) = None ->
   readAccAxis rm env axis w =
     (observe w 2 0 0 0 (pair_reads (ACC_ADDRESS rm) (out_A rm axis)),
      Raised (OSError Bus)) /\
   readMagAxis rm env axis w =
     (observe w 2 0 0 0 (pair_reads (MAG_ADDRESS rm) (out_M rm axis)),
      Raised (OSError Bus)) /\
   readGyrAxis rm env axis w =
     (observe w 2 0 0 0 (pair_reads (GYR_ADDRESS rm) (out_G rm axis)),
      Raised (OSError Bus))).
Proof.
  intros (Hacc & Hmag & Hgyr) Hax.
  unfold readAccAxis, readMagAxis, readGyrAxis, bind at 1 5 9 13 17 21, get_self.
  rewrite Hacc, Hmag. cbn [negb].
  split; [intros H | intros H1 H2];
    destruct Hax as [<- | [<- | [<- | []]]]; cbn [Z.eqb Pos.eqb bind ret];
    repeat split;
    first [ exact (proj1 (read_pair_fail env _ _ w) H)
          | exact (proj2 (read_pair_fail env _ _ w) H1 H2) ].
Qed.

Lemma bus_failure_aborts_axis_read_witness :
  readMagAxis LSM9DS0 bus_down 2 (world_of all_active) =
  (mkWorld all_active 1 0 0 0 0 0 [BusRead 30 12], Raised (OSError Bus)).
Proof.
  apply (proj1 (bus_failure_aborts_axis_read LSM9DS0 bus_down 2
                  (world_of all_active) ltac:(repeat split)
                  ltac:(cbn; tauto))).
  reflexivity.
Defined.

(** X10.  A task that finds the shared flag set at its first read takes no
    sample, with or without a rotation period and with any fuel: it reads
    the flag, closes the pipe and returns. *)
Theorem task_started_cancelled_only_closes_pipe
    rm env fuel freq file_name cut exit_flag pipe w :
  exit_flag_value env (flag_n w) <> 0 ->
  _take_measurements rm env fuel freq file_name cut exit_flag pipe w =
  (observe w 0 1 0 0 [FlagRead exit_flag; PipeClose pipe], Returned tt).
Proof.
  intros Hset. apply Z.eqb_neq in Hset.
  unfold _take_measurements, try_except, measurements_body.
  rewrite (bind_returned _ _ _ _ _ (read_exit_flag_eq _ _ _)).
  assert (Hloop : forall w1,
    while_loop rm env fuel freq file_name cut exit_flag pipe
      (exit_flag_value env (flag_n w)) w1 = (w1, Returned tt)).
  { intros w1. destruct fuel; cbn [while_loop]; rewrite Hset; reflexivity. }
  rewrite (bind_returned _ _ _ _ _ (Hloop _)).
  rewrite emit_eq, observe_observe. reflexivity.
Qed.

Lemma task_started_cancelled_only_closes_pipe_witness :
  _take_measurements LSM9DS0 (healthy_env ramp (cancel_from 0)) 0 10 "data"
    (Some 2) 0 1 (world_of all_active) =
  (mkWorld all_active 0 1 0 0 0 0 [FlagRead 0; PipeClose 1], Returned tt).
Proof.
  apply (task_started_cancelled_only_closes_pipe LSM9DS0
           (healthy_env ramp (cancel_from 0)) 0 10 "data" (Some 2) 0 1
           (world_of all_active)).
  discriminate.
Defined.

(** X11.  With a rotation period whose product with the frequency is zero or
    negative, [range(0, cut*freq)] is empty: a task that finds the flag at
    0 never samples and never reads the flag again, whatever the fuel. *)
Theorem empty_rotation_range_never_samples
    rm env fuel freq file_name cut exit_flag pipe w :
  exit_flag_value env (flag_n w) = 0 ->
  cut * freq <= 0 ->
  _take_measurements rm env fuel freq file_name (Some cut) exit_flag pipe w =
  (observe w 0 1 0 0 [FlagRead exit_flag], Running).
Proof.
  intros Hzero Hrange.
  unfold _take_measurements, try_except, measurements_body.
  rewrite (bind_returned _ _ _ _ _ (read_exit_flag_eq _ _ _)), Hzero.
  assert (HN : Z.to_nat (cut * freq) = 0%nat) by lia.
  assert (H : forall n w1,
             while_loop rm env n freq file_name (Some cut) exit_flag pipe 0 w1
             = (w1, Running)).
  { induction n as [| n IH]; intros w1; [reflexivity |].
    cbn [while_loop Z.eqb]. rewrite HN. cbn [for_range].
    unfold bind at 1, ret. cbn [snd]. apply IH. }
  unfold bind. rewrite H. reflexivity.
Qed.

Lemma empty_rotation_range_never_samples_witness :
  _take_measurements LSM9DS0 (healthy_env ramp (cancel_from 3)) 1000 10 "data"
    (Some 0) 0 1 (world_of all_active) =
  (mkWorld all_active 0 1 0 0 0 0 [FlagRead 0], Running).
Proof.
  apply (empty_rotation_range_never_samples LSM9DS0
           (healthy_env ramp (cancel_from 3)) 1000 10 "data" 0 0 1
           (world_of all_active)).
  - reflexivity.
  - lia.
Defined.

Lemma take_sample_negative_freq rm env bytes freq file_name exit_flag pipe n w :
  all_on (self w) -> replies env bytes w 18 ->
  file_ok env (file_n w) = true -> file_ok env (S (file_n w)) = true ->
  pipe_ok env (pipe_n w) = true -> freq < 0 ->
  take_sample rm env freq file_name exit_flag pipe n w =
  (observe w 18 1 2 1
     ([FileOpen (file_path file_name n)] ++
      sensor_reads (ACC_ADDRESS rm) (out_A rm) ++
      sensor_reads (MAG_ADDRESS rm) (out_M rm) ++
      sensor_reads (GYR_ADDRESS rm) (out_G rm) ++
      [FileWrite (file_path file_name n)
         (file_output (reading bytes (bus_n w)) (reading bytes (6 + bus_n w))
                      (reading bytes (12 + bus_n w)));
       PipeSend pipe [reading bytes (bus_n w); reading bytes (6 + bus_n w);
                      reading bytes (12 + bus_n w)];
       FlagRead exit_flag;
       FileClose (file_path file_name n)]),
   Raised (ValueError sleep_message)).
Proof.
  intros (Hacc & Hmag & Hgyr) Hbus Hopen Hwrite Hpipe Hfreq.
  unfold take_sample, with_open.
  rewrite (bind_returned _ _ _ _ _ (file_op_ok _ _ _ Hopen)).
  erewrite bind_returned
    by (apply (readAcc_ok rm env bytes); [exact Hacc |];
        apply replies_shift with (rest := 18%nat); [exact Hbus | lia]).
  rewrite observe_observe.
  erewrite bind_returned
    by (apply (readMag_ok rm env bytes); [exact Hmag |];
        apply replies_shift with (rest := 12%nat); [exact Hbus | lia]).
  rewrite observe_observe.
  erewrite bind_returned
    by (apply (readGyr_ok rm env bytes); [exact Hacc |];
        apply replies_shift with (rest := 6%nat); [exact Hbus | lia]).
  rewrite observe_observe.
  erewrite bind_returned by (apply file_op_ok; exact Hwrite).
  rewrite observe_observe.
  erewrite bind_returned by (apply pipe_send_ok; exact Hpipe).
  rewrite observe_observe.
  rewrite (bind_returned _ _ _ _ _ (read_exit_flag_eq _ _ _)).
  rewrite observe_observe.
  assert (Hsleep : forall w1, sleep freq w1 = (w1, Raised (ValueError sleep_message))).
  { intros w1. unfold sleep.
    destruct (Z.eqb_spec freq 0); [lia |].
    destruct (Z.ltb_spec freq 0); [reflexivity | lia]. }
  rewrite (bind_raised _ _ _ _ _ (Hsleep _)).
  unfold bind, raise. rewrite emit_eq, observe_observe.
  cbn [observe bus_n flag_n Nat.add].
  rewrite <- !app_assoc. reflexivity.
Qed.

(** X12.  With a negative frequency and a negative rotation period the range
    is not empty, and the first sample is read, written and sent; then
    [time.sleep(1/freq)] raises ValueError, which is not caught: the file
    is closed, the pipe is not, and the task ends with the error. *)
Theorem negative_frequency_fails_after_first_sample
    rm env bytes fuel freq cut file_name exit_flag pipe w :
  all_on (self w) -> replies env bytes w 18 ->
  file_ok env (file_n w) = true -> file_ok env (S (file_n w)) = true ->
  pipe_ok env (pipe_n w) = true ->
  exit_flag_value env (flag_n w) = 0 ->
  freq < 0 -> cut < 0 -> (0 < fuel)%nat ->
  let acc := reading bytes (bus_n w) in
  let mag := reading bytes (6 + bus_n w) in
  let gyr := reading bytes (12 + bus_n w) in
  let path := file_path file_name 0 in
  _take_measurements rm env fuel freq file_name (Some cut) exit_flag pipe w =
  (observe w 18 2 2 1
     ([FlagRead exit_flag; FileOpen path] ++
      sensor_reads (ACC_ADDRESS rm) (out_A rm) ++
      sensor_reads (MAG_ADDRESS rm) (out_M rm) ++
      sensor_reads (GYR_ADDRESS rm) (out_G rm) ++
      [FileWrite path (file_output acc mag gyr);
       PipeSend pipe [acc; mag; gyr];
       FlagRead exit_flag;
       FileClose path]),
   Raised (ValueError sleep_message)).
Proof.
  intros Hon Hbus Hopen Hwrite Hpipe Hzero Hfreq Hcut Hfuel acc mag gyr path.
  unfold _take_measurements, try_except, measurements_body.
  rewrite (bind_returned _ _ _ _ _ (read_exit_flag_eq _ _ _)), Hzero.
  destruct fuel as [| fuel']; [lia |].
  cbn [while_loop Z.eqb].
  destruct (Z.to_nat (cut * freq)) as [| i] eqn:EN; [nia |].
  cbn [for_range].
  assert (Hs := take_sample_negative_freq rm env bytes freq file_name
                  exit_flag pipe 0 (observe w 0 1 0 0 [FlagRead exit_flag])
                  Hon (replies_shift env bytes w 18 0 1 0 0 _ 18 Hbus (le_n _))
                  Hopen Hwrite Hpipe Hfreq).
  rewrite (bind_raised _ _ _ _ _
             (bind_raised _ _ _ _ _ (bind_raised _ _ _ _ _ Hs))).
  rewrite observe_observe. reflexivity.
Qed.

Lemma negative_frequency_fails_after_first_sample_witness :
  snd (_take_measurements LSM9DS0 (healthy_env ramp (fun _ => 0)) 4 (-10) "data"
         (Some (-2)) 0 1 (world_of all_active)) =
  Raised (ValueError sleep_message).
Proof.
  rewrite (negative_frequency_fails_after_first_sample LSM9DS0
             (healthy_env ramp (fun _ => 0)) ramp 4 (-10) (-2) "data" 0 1
             (world_of all_active)); try reflexivity; try lia.
  - repeat split.
  - intros i _. reflexivity.
Defined.

Lemma halts_ret {A} (a : A) : halts (ret a).
Proof. intros w. discriminate. Qed.

Lemma halts_raise {A} e : halts (@raise A e).
Proof. intros w. discriminate. Qed.

Lemma halts_bind {A B} (m : M A) (f : A -> M B) :
  halts m -> (forall a, halts (f a)) -> halts (bind m f).
Proof.
  intros Hm Hf w. unfold bind. specialize (Hm w).
  destruct (m w) as [w1 [a | e |]]; cbn [snd] in *;
    [apply Hf | discriminate | congruence].
Qed.

Lemma halts_read_byte_data env address register :
  halts (read_byte_data env address register).
Proof.
  intros w. unfold read_byte_data.
  destruct (bus_reply env (bus_n w)); discriminate.
Qed.

Ltac halts_axis :=
  apply halts_bind; [intros w; discriminate |]; intros s;
  destruct (negb _); [apply halts_raise |];
  apply halts_bind;
  [ repeat (match goal with |- halts (if ?b then _ else _) => destruct b end);
    (apply halts_ret || apply halts_raise)
  | intros regs; apply halts_bind; [apply halts_read_byte_data |]; intros lo;
    apply halts_bind; [apply halts_read_byte_data |]; intros hi; apply halts_ret ].

Lemma halts_readAccAxis rm env axis : halts (readAccAxis rm env axis).
Proof. unfold readAccAxis. halts_axis. Qed.

Lemma halts_readMagAxis rm env axis : halts (readMagAxis rm env axis).
Proof. unfold readMagAxis. halts_axis. Qed.

Lemma halts_readGyrAxis rm env axis : halts (readGyrAxis rm env axis).
Proof. unfold readGyrAxis. halts_axis. Qed.

Ltac halts_three :=
  repeat (apply halts_bind;
          [ first [apply halts_readAccAxis | apply halts_readMagAxis
                  | apply halts_readGyrAxis] | intros ? ]);
  apply halts_ret.

Lemma halts_readAcc rm env : halts (readAcc rm env).
Proof. unfold readAcc. halts_three. Qed.

Lemma halts_readMag rm env : halts (readMag rm env).
Proof. unfold readMag. halts_three. Qed.

Lemma halts_readGyr rm env : halts (readGyr rm env).
Proof. unfold readGyr. halts_three. Qed.

Lemma file_op_fail env e w :
  file_ok env (file_n w) = false ->
  file_op env e w = (observe w 0 0 1 0 [e], Raised (OSError File)).
Proof. intros H. unfold file_op. rewrite H. reflexivity. Qed.

Lemma pipe_send_fail env pipe bundle w :
  pipe_ok env (pipe_n w) = false ->
  pipe_send env pipe bundle w =
  (observe w 0 0 0 1 [PipeSend pipe bundle], Raised (OSError Pipe)).
Proof. intros H. unfold pipe_send. rewrite H. reflexivity. Qed.

Lemma sample_tail_cases env path line pipe exit_flag bundle freq w :
  let r := bind (file_op env (FileWrite path line))
             (fun _ => bind (pipe_send env pipe bundle)
                (fun _ => bind (read_exit_flag env exit_flag)
                   (fun local_flag => bind (sleep freq)
                      (fun _ => ret local_flag)))) w in
  self (fst r) = self w /\
  exists evs, trace (fst r) = trace w ++ evs /\
              sample_tail path line pipe exit_flag bundle freq evs (snd r).
Proof.
  unfold sample_tail. cbv zeta.
  destruct (file_ok env (file_n w)) eqn:Hwrite.
  2: { rewrite (bind_raised _ _ _ _ _ (file_op_fail env _ w Hwrite)).
       split; [reflexivity |]. eexists. split; [reflexivity |]. left. auto. }
  rewrite (bind_returned _ _ _ _ _ (file_op_ok env _ w Hwrite)).
  destruct (pipe_ok env (pipe_n w)) eqn:Hpipe.
  2: { erewrite bind_raised by (apply pipe_send_fail; exact Hpipe).
       rewrite observe_observe.
       split; [reflexivity |]. eexists. split; [reflexivity |].
       right; left. auto. }
  erewrite bind_returned by (apply pipe_send_ok; exact Hpipe).
  rewrite observe_observe.
  rewrite (bind_returned _ _ _ _ _ (read_exit_flag_eq _ _ _)).
  rewrite observe_observe.
  unfold sleep.
  destruct (freq =? 0).
  { unfold bind at 1, raise. split; [reflexivity |].
    eexists. split; [reflexivity |]. right; right; left. auto. }
  destruct (freq <? 0).
  { unfold bind at 1, raise. split; [reflexivity |].
    eexists. split; [reflexivity |]. right; right; left. auto. }
  rewrite (bind_returned _ _ _ _ _ (emit_eq _ _)). rewrite observe_observe.
  unfold ret. split; [reflexivity |].
  eexists. split; [reflexivity |].
  right; right; right. split; [reflexivity |]. eexists. reflexivity.
Qed.

Lemma with_open_run {A} env name (body : M A) w :
  file_ok env (file_n w) = true ->
  with_open env name body w =
  match body (observe w 0 0 1 0 [FileOpen name]) with
  | (w', Returned a) => (observe w' 0 0 0 0 [FileClose name], Returned a)
  | (w', Raised e) => (observe w' 0 0 0 0 [FileClose name], Raised e)
  | (w', Running) => (w', Running)
  end.
Proof.
  intros H. unfold with_open.
  rewrite (bind_returned _ _ _ _ _ (file_op_ok env _ w H)).
  destruct (body _) as [w' [a | e |]]; reflexivity.
Qed.

Lemma take_sample_cases rm env freq file_name exit_flag pipe n w :
  let r := take_sample rm env freq file_name exit_flag pipe n w in
  self (fst r) = self w /\
  exists evs, trace (fst r) = trace w ++ evs /\
              sample_case env w (file_path file_name n) pipe exit_flag freq
                          evs (snd r).
Proof.
  unfold take_sample, sample_case. cbv zeta.
  set (path := file_path file_name n).
  destruct (file_ok env (file_n w)) eqn:Hopen.
  2: { unfold with_open.
       rewrite (bind_raised _ _ _ _ _ (file_op_fail env _ w Hopen)).
       split; [reflexivity |]. exists [FileOpen path]. split; [reflexivity |]. auto. }
  rewrite with_open_run by exact Hopen.
  set (w1 := observe w 0 0 1 0 [FileOpen path]).
  assert (Hs1 : self w1 = self w) by reflexivity.
  assert (Ht1 : trace w1 = trace w ++ [FileOpen path]) by reflexivity.
  clearbody w1.
  (* accelerometer *)
  destruct (confined_readAcc rm env w1) as (Hsa & ea & Hta & Hca).
  pose proof (halts_readAcc rm env w1) as Hha.
  destruct (readAcc rm env w1) as [wa [acc | e |]] eqn:Ea;
    cbn [fst snd] in *; [| | congruence].
  2: { rewrite (bind_raised _ _ _ _ _ Ea). cbn [fst snd observe self trace].
       split; [congruence |].
       exists (FileOpen path :: ea ++ [FileClose path]).
       split; [rewrite Hta, Ht1, <- !app_assoc; reflexivity |].
       right. split; [reflexivity |]. exists ea. split; [exact Hca |].
       left. eauto. }
  rewrite (bind_returned _ _ _ _ _ Ea).
  (* magnetometer *)
  destruct (confined_readMag rm env wa) as (Hsm & em & Htm & Hcm).
  pose proof (halts_readMag rm env wa) as Hhm.
  destruct (readMag rm env wa) as [wm [mag | e |]] eqn:Em;
    cbn [fst snd] in *; [| | congruence].
  2: { rewrite (bind_raised _ _ _ _ _ Em). cbn [fst snd observe self trace].
       split; [congruence |].
       exists (FileOpen path :: (ea ++ em) ++ [FileClose path]).
       split; [rewrite Htm, Hta, Ht1, <- !app_assoc; reflexivity |].
       right. split; [reflexivity |]. exists (ea ++ em).
       split; [rewrite forallb_app, Hca, Hcm; reflexivity |]. left. eauto. }
  rewrite (bind_returned _ _ _ _ _ Em).
  (* gyroscope *)
  destruct (confined_readGyr rm env wm) as (Hsg & eg & Htg & Hcg).
  pose proof (halts_readGyr rm env wm) as Hhg.
  destruct (readGyr rm env wm) as [wg [gyr | e |]] eqn:Eg;
    cbn [fst snd] in *; [| | congruence].
  2: { rewrite (bind_raised _ _ _ _ _ Eg). cbn [fst snd observe self trace].
       split; [congruence |].
       exists (FileOpen path :: (ea ++ em ++ eg) ++ [FileClose path]).
       split; [rewrite Htg, Htm, Hta, Ht1, <- !app_assoc; reflexivity |].
       right. split; [reflexivity |]. exists (ea ++ em ++ eg).
       split; [rewrite !forallb_app, Hca, Hcm, Hcg; reflexivity |]. left. eauto. }
  rewrite (bind_returned _ _ _ _ _ Eg).
  (* the rest of the sample *)
  destruct (sample_tail_cases env path (file_output acc mag gyr) pipe exit_flag
              [acc; mag; gyr] freq wg) as (Hst & et & Htt & Hcase).
  match goal with
  | |- context [match ?t with _ => _ end] => destruct t as [wt rt]
  end.
  cbn [fst snd] in *.
  assert (Hshape :
    trace wt ++ [FileClose path] =
    trace w ++ FileOpen path :: (ea ++ em ++ eg) ++ et ++ [FileClose path]).
  { rewrite Htt, Htg, Htm, Hta, Ht1, <- !app_assoc. reflexivity. }
  assert (Hreads : forallb is_bus_read (ea ++ em ++ eg) = true)
    by (rewrite !forallb_app, Hca, Hcm, Hcg; reflexivity).
  assert (Hnot : rt <> Running).
  { destruct Hcase as [[_ ->] | [[_ ->] | [[_ [-> | ->]] | [_ [v ->]]]]];
      discriminate. }
  destruct rt as [v | e |]; [| | congruence]; cbn [fst snd observe self trace].
  - split; [congruence |]. eexists. split; [exact Hshape |].
    right. split; [reflexivity |]. exists (ea ++ em ++ eg).
    split; [exact Hreads |]. right. exists acc, mag, gyr, et. auto.
  - split; [congruence |]. eexists. split; [exact Hshape |].
    right. split; [reflexivity |]. exists (ea ++ em ++ eg).
    split; [exact Hreads |]. right. exists acc, mag, gyr, et. auto.
Qed.

Lemma writes_app a b : writes (a ++ b) = (writes a + writes b)%nat.
Proof. unfold writes. rewrite filter_app, length_app. reflexivity. Qed.

Lemma bus_reads_count reads :
  forallb is_bus_read reads = true ->
  sends reads = 0%nat /\ writes reads = 0%nat /\
  forallb task_event reads = true /\
  forallb (fun e => negb (is_open_or_close e)) reads = true.
Proof.
  induction reads as [| e rest IH]; cbn; [auto |].
  destruct e; cbn; try discriminate. exact IH.
Qed.

Section Task.

Variable P : list Event -> Prop.
Hypothesis P_nil : P [].
Hypothesis P_app : forall a b, P a -> P b -> P (a ++ b).

Variable rm : RegisterMap.
Variable env : Env.
Variables (freq : Z) (file_name : string) (exit_flag pipe : nat).

Hypothesis P_sample :
  forall n, extends P (take_sample rm env freq file_name exit_flag pipe n).
Hypothesis P_flag : P [FlagRead exit_flag].
Hypothesis P_close : P [PipeClose pipe].
Hypothesis P_print : forall text, P [Print text].

Lemma extends_for_range iters : forall n local_flag,
  extends P (for_range rm env iters freq file_name exit_flag pipe n local_flag).
Proof.
  induction iters as [| i IH]; intros n local_flag; cbn [for_range].
  - apply extends_ret; assumption.
  - apply extends_bind; auto.
Qed.

Lemma extends_while_loop fuel cut : forall local_flag,
  extends P (while_loop rm env fuel freq file_name cut exit_flag pipe local_flag).
Proof.
  induction fuel as [| fuel' IH]; intros local_flag; cbn [while_loop];
    destruct (local_flag =? 0);
    try (apply extends_ret; assumption);
    try (apply extends_running; assumption).
  destruct cut as [c |]; [| apply IH].
  apply extends_bind; auto. apply extends_for_range.
Qed.

Lemma extends_take_measurements fuel cut :
  extends P (_take_measurements rm env fuel freq file_name cut exit_flag pipe).
Proof.
  unfold _take_measurements, measurements_body.
  apply extends_try_except; auto.
  - apply extends_bind; auto.
    + apply (extends_one P (FlagRead exit_flag)); auto.
    + intros lf. apply extends_bind; auto; [apply extends_while_loop |].
      intros _. apply (extends_one P (PipeClose pipe)); auto.
  - intros e h He. destruct e; try discriminate.
    injection He as <-. apply (extends_one P (Print (message sensor))); auto.
Qed.

End Task.

(** X13.  Every run of the acquisition task, however it ends, leaves the
    object as it was and never writes to the bus, never writes the shared
    flag, and starts or joins no process. *)
Theorem task_never_writes_bus_or_flag
    rm env fuel freq file_name cut exit_flag pipe :
  confined task_event
    (_take_measurements rm env fuel freq file_name cut exit_flag pipe).
Proof.
  apply extends_take_measurements; try reflexivity.
  - intros a b Ha Hb. rewrite forallb_app, Ha, Hb. reflexivity.
  - intros n w.
    destruct (take_sample_cases rm env freq file_name exit_flag pipe n w)
      as (Hs & evs & Ht & Hcase).
    split; [exact Hs |]. exists evs. split; [exact Ht |].
    destruct Hcase as [(_ & -> & _) | (_ & reads & Hr & Hcase)]; [reflexivity |].
    destruct (bus_reads_count reads Hr) as (_ & _ & Hok & _).
    destruct Hcase as [(e & -> & _) | (acc & mag & gyr & tail & -> & Htail)].
    + cbn. rewrite forallb_app, Hok. reflexivity.
    + cbn. rewrite !forallb_app, Hok.
      destruct Htail as [[-> _] | [[-> _] | [[-> _] | [-> _]]]]; reflexivity.
Qed.

(** X14.  In every run of the acquisition task, however it ends, the number
    of bundles put on the pipe is at most the number of lines handed to
    [file.write]. *)
Theorem task_sends_only_what_it_logged
    rm env fuel freq file_name cut exit_flag pipe w :
  exists evs,
    trace (fst (_take_measurements rm env fuel freq file_name cut exit_flag
                  pipe w)) = trace w ++ evs /\
    (sends evs <= writes evs)%nat.
Proof.
  apply (extends_take_measurements (fun evs => (sends evs <= writes evs)%nat));
    try (cbn; lia).
  - intros a b Ha Hb. rewrite sends_app, writes_app. lia.
  - intros n w0.
    destruct (take_sample_cases rm env freq file_name exit_flag pipe n w0)
      as (Hs & evs & Ht & Hcase).
    split; [exact Hs |]. exists evs. split; [exact Ht |].
    destruct Hcase as [(_ & -> & _) | (_ & reads & Hr & Hcase)]; [cbn; lia |].
    destruct (bus_reads_count reads Hr) as (Hs0 & Hw0 & _ & _).
    destruct Hcase as [(e & -> & _) | (acc & mag & gyr & tail & -> & Htail)].
    + change (FileOpen (file_path file_name n) :: reads ++ [FileClose (file_path file_name n)])
        with ([FileOpen (file_path file_name n)] ++ reads ++ [FileClose (file_path file_name n)]).
      rewrite !sends_app, !writes_app, Hs0, Hw0. cbn. lia.
    + change (FileOpen (file_path file_name n) :: reads ++ tail ++ [FileClose (file_path file_name n)])
        with ([FileOpen (file_path file_name n)] ++ reads ++ tail ++ [FileClose (file_path file_name n)]).
      rewrite !sends_app, !writes_app, Hs0, Hw0.
      destruct Htail as [[-> _] | [[-> _] | [[-> _] | [-> _]]]]; cbn; lia.
Qed.


(** X16.  When a pass of the [for] loop ends with a bus error or a
    SensorInactiveError, nothing was written to the file and nothing was
    sent on the pipe. *)
Theorem failed_reads_leave_no_partial_sample
    rm env freq file_name exit_flag pipe n w :
  let r := take_sample rm env freq file_name exit_flag pipe n w in
  (snd r = Raised (OSError Bus) \/
   exists sensor, snd r = Raised (SensorInactiveError sensor)) ->
  exists evs,
    trace (fst r) = trace w ++ evs /\ writes evs = 0%nat /\ sends evs = 0%nat.
Proof.
  intros r Hr. subst r.
  destruct (take_sample_cases rm env freq file_name exit_flag pipe n w)
    as (Hs & evs & Ht & Hcase).
  exists evs. split; [exact Ht |].
  destruct Hcase as [(_ & -> & Hr') | (_ & reads & Hreads & Hcase)].
  - split; reflexivity.
  - destruct (bus_reads_count reads Hreads) as (Hs0 & Hw0 & _ & _).
    destruct Hcase as [(e & -> & _) | (acc & mag & gyr & tail & -> & Htail)].
    + change (FileOpen (file_path file_name n) :: reads ++ [FileClose (file_path file_name n)])
        with ([FileOpen (file_path file_name n)] ++ reads ++ [FileClose (file_path file_name n)]).
      rewrite !sends_app, !writes_app, Hs0, Hw0. split; reflexivity.
    + exfalso.
      destruct Htail as [[_ E] | [[_ E] | [[_ [E | E]] | [_ [v E]]]]];
        rewrite E in Hr; destruct Hr as [Hr | [s Hr]]; discriminate.
Qed.

Lemma failed_reads_leave_no_partial_sample_witness :
  exists evs,
    trace (fst (take_sample LSM9DS0 bus_down 10 "data" 0 1 0 (world_of all_active)))
    = trace (world_of all_active) ++ evs /\
    writes evs = 0%nat /\ sends evs = 0%nat.
Proof.
  apply (failed_reads_leave_no_partial_sample LSM9DS0 bus_down 10 "data" 0 1 0
           (world_of all_active)).
  left. reflexivity.
Defined.

Lemma take_measurements_process_run freq file_name cut w :
  let p := mkProcess (2 + fresh w) freq file_name cut (fresh w) (1 + fresh w) in
  take_measurements_process freq file_name cut w =
  (mkWorld (mkIMU (_processes (self w) ++ [p]) (_flags (self w) ++ [fresh w])
                  (_acc_active (self w)) (_gyr_active (self w))
                  (_mag_active (self w)))
           (bus_n w) (flag_n w) (file_n w) (pipe_n w) (join_n w) (3 + fresh w)
           (trace w ++ [ProcessStart p]),
   Returned (1 + fresh w)%nat).
Proof. reflexivity. Qed.

(** X17.  Any sequence of [take_measurements_process] calls appends one
    process per call, with the arguments of the call, and that process's
    own flag at the same position of the flag list; it returns the pipes
    of these processes, starts each of them, and leaves the active flags
    alone. *)
Theorem launches_track_each_process_with_its_flag requests : forall w,
  exists ps,
    let r := launch_all requests w in
    _processes (self (fst r)) = _processes (self w) ++ ps /\
    _flags (self (fst r)) = _flags (self w) ++ map p_exit_flag ps /\
    map request_of ps = requests /\
    snd r = Returned (map p_pipe ps) /\
    trace (fst r) = trace w ++ map ProcessStart ps /\
    same_flags (self w) (self (fst r)) /\
    (aligned (self w) -> aligned (self (fst r))).
Proof.
  induction requests as [| [[freq file_name] cut] rest IH]; intros w.
  - exists []. cbn. rewrite !app_nil_r. repeat split; auto.
  - cbn [launch_all].
    rewrite (bind_returned _ _ _ _ _
               (take_measurements_process_run freq file_name cut w)).
    set (p := mkProcess (2 + fresh w) freq file_name cut (fresh w) (1 + fresh w)).
    set (w1 := mkWorld _ _ _ _ _ _ _ _).
    destruct (IH w1) as (ps & Hp & Hf & Hreq & Hret & Ht & (Ha & Hg & Hm) & Hal).
    exists (p :: ps). cbv zeta in *.
    destruct (launch_all rest w1) as [w2 r2] eqn:E. cbn [fst snd] in *. subst r2.
    rewrite (bind_returned _ _ _ _ _ E). unfold ret. cbn [fst snd].
    repeat split.
    + rewrite Hp. cbn. rewrite <- app_assoc. reflexivity.
    + rewrite Hf. cbn. rewrite <- app_assoc. reflexivity.
    + cbn. rewrite Hreq. reflexivity.
    + rewrite Ht. cbn. rewrite <- app_assoc. reflexivity.
    + exact Ha.
    + exact Hg.
    + exact Hm.
    + intros Hw. apply Hal. unfold aligned in *. cbn.
      rewrite map_app, Hw. reflexivity.
Qed.

(** X18.  When flags and processes are tracked position by position,
    [end_measurements_processes] writes 1 to the flag of each tracked
    process, in order, before it joins them in the same order. *)
Theorem shutdown_signals_each_tracked_process env w :
  aligned (self w) ->
  (forall k, (k < List.length (_processes (self w)))%nat ->
             join_returns env (k + join_n w) = true) ->
  end_measurements_processes env w =
  (joined w (List.length (_processes (self w)))
     (map (fun p => FlagWrite (p_exit_flag p) 1) (_processes (self w)) ++
      join_events 0 (_processes (self w))),
   Returned tt).
Proof.
  intros Hal H. unfold end_measurements_processes, bind at 1, get_self.
  rewrite (bind_returned _ _ _ _ _ (set_flags_eq _ _)).
  unfold bind at 1. cbn [fst snd observe self].
  rewrite join_processes_ok by exact H.
  unfold joined. cbn. rewrite app_assoc, <- Hal, map_map. reflexivity.
Qed.

Lemma shutdown_signals_each_tracked_process_witness :
  trace (fst (end_measurements_processes (healthy_env ramp (fun _ => 0))
                two_launched)) =
  [ProcessStart (mkProcess 2 5 "a" None 0 1);
   ProcessStart (mkProcess 5 10 "b" (Some 2) 3 4);
   FlagWrite 0 1; FlagWrite 3 1;
   ProcessJoin (mkProcess 2 5 "a" None 0 1); Print "IMU Process 0 joined";
   ProcessJoin (mkProcess 5 10 "b" (Some 2) 3 4); Print "IMU Process 1 joined"].
Proof.
  rewrite (shutdown_signals_each_tracked_process
             (healthy_env ramp (fun _ => 0)) two_launched).
  - reflexivity.
  - reflexivity.
  - intros k _. reflexivity.
Defined.

Lemma confined_set_flags flags : confined shutdown_event (set_flags flags).
Proof.
  induction flags as [| flag rest IH]; cbn [set_flags].
  - apply confined_ret.
  - apply confined_bind; [| intros _; exact IH].
    apply (confined_one shutdown_event (FlagWrite flag 1)); [reflexivity |].
    intros w. split; reflexivity.
Qed.

Lemma confined_join_processes env processes : forall i,
  confined shutdown_event (join_processes env i processes).
Proof.
  induction processes as [| p rest IH]; intros i; cbn [join_processes].
  - apply confined_ret.
  - apply confined_bind.
    + apply (confined_one shutdown_event (ProcessJoin p)); [reflexivity |].
      intros w. unfold join. destruct (join_returns env (join_n w)); split; reflexivity.
    + intros _. apply confined_bind; [| intros _; apply IH].
      apply (confined_one shutdown_event
               (Print ("IMU Process " ++ str i ++ " joined")));
        [reflexivity |].
      intros w. split; reflexivity.
Qed.

(** X19.  [end_measurements_processes], however it ends, leaves the object
    as it was (no process or flag is forgotten) and only writes flags,
    joins and prints. *)
Theorem shutdown_only_signals_joins_and_prints env :
  confined shutdown_event (end_measurements_processes env).
Proof.
  unfold end_measurements_processes.
  apply confined_bind; [apply confined_get_self |]. intros s.
  apply confined_bind; [apply confined_set_flags |]. intros _.
  apply confined_bind; [apply confined_get_self |]. intros s'.
  apply confined_join_processes.
Qed.

(** X20.  The tracked lists are not emptied by a shutdown: a second
    [end_measurements_processes] writes the same flags and joins the same
    processes again. *)
Theorem second_shutdown_repeats_the_first env w :
  let n := List.length (_processes (self w)) in
  let evs := map (fun flag => FlagWrite flag 1) (_flags (self w)) ++
             join_events 0 (_processes (self w)) in
  (forall k, (k < 2 * n)%nat -> join_returns env (k + join_n w) = true) ->
  bind (end_measurements_processes env)
       (fun _ => end_measurements_processes env) w =
  (joined w (2 * n) (evs ++ evs), Returned tt).
Proof.
  intros n evs H.
  assert (Hend : forall w1,
    (forall k, (k < List.length (_processes (self w1)))%nat ->
               join_returns env (k + join_n w1) = true) ->
    end_measurements_processes env w1 =
    (joined w1 (List.length (_processes (self w1)))
       (map (fun flag => FlagWrite flag 1) (_flags (self w1)) ++
        join_events 0 (_processes (self w1))), Returned tt)).
  { intros w1 H1. unfold end_measurements_processes, bind at 1, get_self.
    rewrite (bind_returned _ _ _ _ _ (set_flags_eq _ _)).
    unfold bind at 1. cbn [fst snd observe self].
    rewrite join_processes_ok by exact H1.
    unfold joined. cbn. rewrite app_assoc. reflexivity. }
  rewrite (bind_returned _ _ _ _ _ (Hend w ltac:(intros k Hk; apply H; fold n; lia))).
  rewrite Hend.
  - unfold joined. cbn [self join_n trace bus_n flag_n file_n pipe_n fresh].
    fold n evs. rewrite <- app_assoc. do 2 f_equal. lia.
  - intros k Hk. cbn [joined self join_n] in *. fold n in Hk |- *.
    replace (k + (n + join_n w))%nat with ((k + n) + join_n w)%nat by lia.
    apply H. lia.
Qed.

Lemma second_shutdown_repeats_the_first_witness :
  trace (fst (bind (end_measurements_processes (healthy_env ramp (fun _ => 0)))
                   (fun _ => end_measurements_processes
                               (healthy_env ramp (fun _ => 0)))
                   two_launched)) =
  trace two_launched ++
  [FlagWrite 0 1; FlagWrite 3 1;
   ProcessJoin (mkProcess 2 5 "a" None 0 1); Print "IMU Process 0 joined";
   ProcessJoin (mkProcess 5 10 "b" (Some 2) 3 4); Print "IMU Process 1 joined";
   FlagWrite 0 1; FlagWrite 3 1;
   ProcessJoin (mkProcess 2 5 "a" None 0 1); Print "IMU Process 0 joined";
   ProcessJoin (mkProcess 5 10 "b" (Some 2) 3 4); Print "IMU Process 1 joined"].
Proof.
  rewrite (second_shutdown_repeats_the_first
             (healthy_env ramp (fun _ => 0)) two_launched).
  - reflexivity.
  - intros k _. reflexivity.
Defined.

Lemma to_int_proper (n : Z) :
  Z.to_int n <> Decimal.Pos Decimal.Nil /\ Z.to_int n <> Decimal.Neg Decimal.Nil.
Proof.
  destruct n as [| p | p]; cbn; split; try discriminate;
    intros [= H]; exact (DecimalPos.Unsigned.to_uint_nonnil p H).
Qed.

Lemma str_injective n m : str n = str m -> n = m.
Proof.
  unfold str. intros H. apply DecimalZ.to_int_inj.
  destruct (to_int_proper n) as [Hn1 Hn2].
  destruct (to_int_proper m) as [Hm1 Hm2].
  pose proof (NilZero.isi (Z.to_int n) Hn1 Hn2) as En.
  pose proof (NilZero.isi (Z.to_int m) Hm1 Hm2) as Em.
  rewrite H in En. congruence.
Qed.

Lemma append_length (a b : string) :
  String.length (a ++ b) = (String.length a + String.length b)%nat.
Proof. induction a as [| c a IH]; cbn; [reflexivity | rewrite IH; reflexivity]. Qed.

Lemma append_cancel_l (p a b : string) : (p ++ a = p ++ b)%string -> a = b.
Proof. induction p as [| c p IH]; cbn; [auto | intros [= H]; auto]. Qed.

Lemma append_cancel_r (t : string) : forall a b : string,
  (a ++ t = b ++ t)%string -> a = b.
Proof.
  induction a as [| c a IH]; intros [| d b] H; cbn in H.
  - reflexivity.
  - exfalso. apply (f_equal String.length) in H. cbn in H.
    rewrite append_length in H. lia.
  - exfalso. apply (f_equal String.length) in H. cbn in H.
    rewrite append_length in H. lia.
  - injection H as -> H. f_equal. apply IH. exact H.
Qed.

(** X21.  For one base name, different counters give different file names. *)
Theorem samples_of_a_pass_go_to_distinct_files file_name n m :
  file_path file_name n = file_path file_name m -> n = m.
Proof.
  unfold file_path. intros H.
  apply append_cancel_l in H. apply (append_cancel_l "_") in H.
  apply append_cancel_r in H. apply str_injective. exact H.
Qed.

Lemma samples_of_a_pass_go_to_distinct_files_witness : 7 = 7.
Proof.
  apply (samples_of_a_pass_go_to_distinct_files "data" 7 7). reflexivity.
Defined.

Lemma opened_app a b : opened (a ++ b) = opened a ++ opened b.
Proof.
  induction a as [| e a IH]; cbn; [reflexivity |].
  destruct e; cbn; rewrite ?IH; reflexivity.
Qed.

Lemma block_files rm freq file_name exit_flag pipe bytes iters : forall n k,
  opened (block_events rm freq file_name exit_flag pipe bytes iters n k) =
    map (fun i => file_path file_name (n + Z.of_nat i)) (seq 0 iters) /\
  writes (block_events rm freq file_name exit_flag pipe bytes iters n k) = iters.
Proof.
  induction iters as [| i IH]; intros n k; cbn [block_events]; [split; reflexivity |].
  rewrite opened_app, writes_app.
  destruct (IH (n + 1) (18 + k)%nat) as [-> ->].
  split; [| reflexivity].
  cbn [seq map]. rewrite <- seq_shift, map_map.
  change (opened (sample_events rm freq file_name exit_flag pipe n bytes k))
    with [file_path file_name n].
  cbn [app]. f_equal.
  - f_equal. lia.
  - apply map_ext. intros j. f_equal. lia.
Qed.

(** X22.  When nothing fails, a pass of [N] samples opens the [N] files
    [file_name_0.txt] .. [file_name_(N-1).txt] in this order, writes [N]
    lines and sends [N] bundles, and ends with the counter at [N] and the
    flag as it was read after the last sample. *)
Theorem pass_opens_one_file_per_sample
    rm env bytes freq file_name exit_flag pipe N local_flag w :
  all_on (self w) ->
  (forall k, bus_reply env k = Some (bytes k)) ->
  (forall k, file_ok env k = true) ->
  (forall k, pipe_ok env k = true) ->
  0 < freq ->
  let r := for_range rm env N freq file_name exit_flag pipe 0 local_flag w in
  exists evs,
    trace (fst r) = trace w ++ evs /\
    opened evs = map (fun i => file_path file_name (Z.of_nat i)) (seq 0 N) /\
    writes evs = N /\ sends evs = N /\
    snd r = Returned (Z.of_nat N,
                      match N with
                      | O => local_flag
                      | S i => exit_flag_value env (i + flag_n w)
                      end).
Proof.
  intros Hon Hbus Hfile Hpipe Hfreq r. subst r.
  rewrite (for_range_ok rm env bytes freq file_name exit_flag pipe
             Hbus Hfile Hpipe Hfreq N 0 local_flag w Hon).
  eexists. cbn [fst snd observe trace]. split; [reflexivity |].
  destruct (block_files rm freq file_name exit_flag pipe bytes N 0 (bus_n w))
    as [Ho Hw].
  destruct (count_block rm freq file_name exit_flag pipe bytes N 0 (bus_n w))
    as [Hs _].
  repeat split; auto.
Qed.

Lemma pass_opens_one_file_per_sample_witness :
  exists evs,
    trace (fst (for_range LSM9DS0 (healthy_env ramp (fun _ => 0)) 3 10 "data"
                  0 1 0 0 (world_of all_active))) = evs /\
    opened evs = ["data_0.txt"; "data_1.txt"; "data_2.txt"]%string.
Proof.
  destruct (pass_opens_one_file_per_sample LSM9DS0
              (healthy_env ramp (fun _ => 0)) ramp 10 "data" 0 1 3 0
              (world_of all_active))
    as (evs & Ht & Ho & _); try reflexivity.
  - repeat split.
  - exists evs. split; [exact Ht | exact Ho].
Defined.


Lemma launches_track_each_process_with_its_flag_witness :
  aligned (self (fst (launch_all [(5, "a"%string, None); (10, "b"%string, Some 2)]
                        (world_of init_IMU)))).
Proof.
  destruct (launches_track_each_process_with_its_flag
              [(5, "a"%string, None); (10, "b"%string, Some 2)]
              (world_of init_IMU))
    as (ps & _ & _ & _ & _ & _ & _ & Hal).
  apply Hal. reflexivity.
Defined.
